(** * Turn routing of the document assistant: a shallow embedding

    This development embeds [src/schemas.py] (the structured response
    types with their validation) and [src/agent.py] (the node functions,
    the router and the graph built by [create_workflow]) and proves the
    properties of the turn-routing state machine.

    Python floats are IEEE binary64 values: they are modelled by Rocq's
    primitive floats, whose comparisons are the ones Python performs.
    Python dictionaries used as maps are [gmap]s; a dictionary used as a
    record with optional keys (the [AgentState] TypedDict and the partial
    updates the nodes return) is a record of [option] fields, [None]
    standing for an absent key. *)

From Stdlib Require Import PrimFloat ZArith.
From stdpp Require Import base option strings gmap list.

Set Warnings "-inexact-float".
Open Scope string_scope.
Open Scope list_scope.
Open Scope nat_scope.

(** ** Exceptions and fallible computations *)

(** The exceptions that can end a call.  [CollaboratorError] stands for
    whatever the language model, the tools or the prebuilt agent raise. *)
Inductive PyExc : Type :=
  | KeyError (key : string)
  | AttributeError (detail : string)
  | ValueError (detail : string)
  | ValidationError (model : string) (detail : string)
  | CollaboratorError (detail : string)
  | GraphRecursionError
  | InvalidGraph (detail : string).

(** A call either returns a value or raises. *)
Inductive Result (A : Type) : Type :=
  | Ok (a : A)
  | Raise (e : PyExc).
Arguments Ok {A} a.
Arguments Raise {A} e.

Global Instance Result_ret : MRet Result := fun A a => Ok a.
Global Instance Result_bind : MBind Result := fun A B f m =>
  match m with
  | Ok a => f a
  | Raise e => Raise e
  end.

Definition is_Ok {A} (r : Result A) : bool :=
  match r with Ok _ => true | Raise _ => false end.

(** ** Values of a [List[str]] field

    Every list field with a default is declared with
    [default_factory=lambda: list]: the factory returns the builtin class
    [list] itself, and pydantic stores a default without validating it.
    A field of declared type [List[str]] therefore holds either a list of
    strings or the class object [list]. *)
Inductive PyStrList : Type :=
  | PyList (l : list string)
  | PyListClass.

(** Python truth value: an empty list is false, a class object is true. *)
Definition truthy (v : PyStrList) : bool :=
  match v with
  | PyList [] => false
  | PyList (_ :: _) => true
  | PyListClass => true
  end.

(** [len(v) >= 1] holds: [v] is a list with at least one element. *)
Definition has_source (v : PyStrList) : bool :=
  match v with
  | PyList (_ :: _) => true
  | _ => false
  end.

(** What [Field(default_factory=lambda: list)] stores for a field: the
    validated argument when one is passed, the factory's result otherwise. *)
Definition list_field (arg : option (list string)) : PyStrList :=
  match arg with
  | Some l => PyList l
  | None => PyListClass
  end.

(** [datetime] values, as a count of microseconds. *)
Definition datetime : Type := Z.

(** [Field(default_factory=datetime.now)], [now] being the clock's reading. *)
Definition timestamp_field (now : datetime) (arg : option datetime) : datetime :=
  default now arg.

(** [Field(le=1.0, ge=0.0)] on a float: both comparisons must hold (a NaN
    fails them). *)
Definition unit_interval (c : float) : bool :=
  PrimFloat.leb 0.0 c && PrimFloat.leb c 1.0.

(** ** [schemas.py] *)

Module AnswerResponse.

Record t : Type := Build {
  question : string;
  answer : string;
  sources : PyStrList;
  confidence : float;
  timestamp : datetime
}.

(** The [model_validator(mode='after')]:
    [if self.confidence >= 0.7 and not self.sources: raise ValueError]. *)
Definition validate_sources_with_confidence (self : t) : Result t :=
  if PrimFloat.leb 0.7 (confidence self) && negb (truthy (sources self))
  then Raise (ValueError "Sources cannot be empty when confidence is high")
  else Ok self.

(** The keyword arguments of a construction; [None] is an omitted
    argument of a field that has a default. *)
Record args : Type := Args {
  a_question : string;
  a_answer : string;
  a_sources : option (list string);
  a_confidence : float;
  a_timestamp : option datetime
}.

(** Construction: the fields are validated, then the model validator
    runs; pydantic reports a [ValueError] of the validator as a
    [ValidationError]. *)
Definition new (now : datetime) (a : args) : Result t :=
  if unit_interval (a_confidence a) then
    match validate_sources_with_confidence
            {| question := a_question a;
               answer := a_answer a;
               sources := list_field (a_sources a);
               confidence := a_confidence a;
               timestamp := timestamp_field now (a_timestamp a) |} with
    | Ok self => Ok self
    | Raise (ValueError d) => Raise (ValidationError "AnswerResponse" d)
    | Raise e => Raise e
    end
  else Raise (ValidationError "AnswerResponse" "confidence").

End AnswerResponse.

Module SummarizationResponse.

Record t : Type := Build {
  original_length : Z;
  summary : string;
  key_points : list string;
  document_ids : PyStrList;
  timestamp : datetime
}.

Record args : Type := Args {
  a_original_length : Z;
  a_summary : string;
  a_key_points : list string;
  a_document_ids : option (list string);
  a_timestamp : option datetime
}.

Definition new (now : datetime) (a : args) : Result t :=
  Ok {| original_length := a_original_length a;
        summary := a_summary a;
        key_points := a_key_points a;
        document_ids := list_field (a_document_ids a);
        timestamp := timestamp_field now (a_timestamp a) |}.

End SummarizationResponse.

Module CalculationResponse.

Record t : Type := Build {
  expression : string;
  result : float;
  explanation : string;
  units : option string;
  timestamp : datetime
}.

Record args : Type := Args {
  a_expression : string;
  a_result : float;
  a_explanation : string;
  a_units : option (option string);
  a_timestamp : option datetime
}.

Definition new (now : datetime) (a : args) : Result t :=
  Ok {| expression := a_expression a;
        result := a_result a;
        explanation := a_explanation a;
        units := default None (a_units a);
        timestamp := timestamp_field now (a_timestamp a) |}.

End CalculationResponse.

Module UpdateMemoryResponse.

Record t : Type := Build {
  summary : string;
  document_ids : PyStrList
}.

Record args : Type := Args {
  a_summary : string;
  a_document_ids : option (list string)
}.

Definition new (a : args) : Result t :=
  Ok {| summary := a_summary a;
        document_ids := list_field (a_document_ids a) |}.

End UpdateMemoryResponse.

Module UserIntent.

Record t : Type := Build {
  intent_type : string;
  confidence : float;
  reasoning : string
}.

(** [Literal["qa", "summarization", "calculation", "unknown"]]. *)
Definition intent_types : list string :=
  ["qa"; "summarization"; "calculation"; "unknown"].

Definition new (a : t) : Result t :=
  if bool_decide (intent_type a ∈ intent_types) then
    if unit_interval (confidence a) then Ok a
    else Raise (ValidationError "UserIntent" "confidence")
  else Raise (ValidationError "UserIntent" "intent_type").

End UserIntent.

(** ** Conversation messages and the [add_messages] reducer

    [langchain_core]'s messages and [langgraph]'s reducer for the
    [messages] channel.  A message carries an optional identifier; the
    reducer gives a fresh [uuid4] to a message that has none.  A fresh
    identifier is modelled as [Uuid n] for an [n] above every [Uuid] in
    sight, so that it differs from the identifiers already in use. *)

Inductive MsgId : Type :=
  | GivenId (s : string)
  | Uuid (n : nat).

Global Instance MsgId_eq_dec : EqDecision MsgId.
Proof. solve_decision. Defined.

Global Instance MsgId_countable : Countable MsgId.
Proof.
  refine (inj_countable'
    (fun i => match i with GivenId s => inl s | Uuid n => inr n end)
    (fun x => match x with inl s => GivenId s | inr n => Uuid n end) _).
  by intros [].
Defined.

Inductive MsgType : Type :=
  | SystemMessage | HumanMessage | AIMessage | ToolMessage | RemoveMessage.

Global Instance MsgType_eq_dec : EqDecision MsgType.
Proof. solve_decision. Defined.

Module BaseMessage.

Record t : Type := Build {
  id : option MsgId;
  type : MsgType;
  content : string;
  name : option string
}.

Definition with_id (i : MsgId) (m : t) : t :=
  {| id := Some i; type := type m; content := content m; name := name m |}.

Definition is_remove (m : t) : bool := bool_decide (type m = RemoveMessage).
Definition is_tool (m : t) : bool := bool_decide (type m = ToolMessage).

End BaseMessage.

Global Instance BaseMessage_eq_dec : EqDecision BaseMessage.t.
Proof. solve_decision. Defined.

Definition REMOVE_ALL_MESSAGES : MsgId := GivenId "__remove_all__".

(** The first [n] such that [Uuid n] and the ones after it differ from
    the identifier of [m]. *)
Definition uuid_index (m : BaseMessage.t) : nat :=
  match BaseMessage.id m with
  | Some (Uuid n) => S n
  | _ => 0
  end.

(** The first [uuid4] that is fresh for all of [ms]. *)
Definition next_uuid (ms : list BaseMessage.t) : nat :=
  max_list (uuid_index <$> ms).

(** [for m in ms: if m.id is None: m.id = str(uuid.uuid4())]. *)
Fixpoint assign_ids (ctr : nat) (ms : list BaseMessage.t)
  : list BaseMessage.t * nat :=
  match ms with
  | [] => ([], ctr)
  | m :: ms =>
      match BaseMessage.id m with
      | Some _ => let r := assign_ids ctr ms in (m :: r.1, r.2)
      | None =>
          let r := assign_ids (S ctr) ms in
          (BaseMessage.with_id (Uuid ctr) m :: r.1, r.2)
      end
  end.

(** [{m.id: i for i, m in enumerate(merged)}], counting from [i]: a later
    message with the same identifier takes the entry. *)
Fixpoint index_by_id (i : nat) (ms : list BaseMessage.t)
    (d : gmap (option MsgId) nat) : gmap (option MsgId) nat :=
  match ms with
  | [] => d
  | m :: ms => index_by_id (S i) ms (<[BaseMessage.id m := i]> d)
  end.

(** [right[remove_all_idx + 1:]] when [right] holds a
    [RemoveMessage(id=REMOVE_ALL_MESSAGES)], [remove_all_idx] being the
    index of the last one. *)
Fixpoint after_remove_all (right_msgs : list BaseMessage.t)
  : option (list BaseMessage.t) :=
  match right_msgs with
  | [] => None
  | m :: rest =>
      match after_remove_all rest with
      | Some tl => Some tl
      | None =>
          if BaseMessage.is_remove m
             && bool_decide (BaseMessage.id m = Some REMOVE_ALL_MESSAGES)
          then Some rest
          else None
      end
  end.

(** The state of the merging loop. *)
Record merge_state : Type := MergeState {
  merged : list BaseMessage.t;
  merged_by_id : gmap (option MsgId) nat;
  ids_to_remove : gset (option MsgId)
}.

(** One iteration of [for m in right]. *)
Definition merge_step (st : merge_state) (m : BaseMessage.t)
  : Result merge_state :=
  match merged_by_id st !! BaseMessage.id m with
  | Some existing_idx =>
      if BaseMessage.is_remove m then
        Ok {| merged := merged st;
              merged_by_id := merged_by_id st;
              ids_to_remove := {[BaseMessage.id m]} ∪ ids_to_remove st |}
      else
        Ok {| merged := <[existing_idx := m]> (merged st);
              merged_by_id := merged_by_id st;
              ids_to_remove := ids_to_remove st ∖ {[BaseMessage.id m]} |}
  | None =>
      if BaseMessage.is_remove m then
        Raise (ValueError
          "Attempting to delete a message with an ID that doesn't exist")
      else
        Ok {| merged := merged st ++ [m];
              merged_by_id :=
                <[BaseMessage.id m := length (merged st)]> (merged_by_id st);
              ids_to_remove := ids_to_remove st |}
  end.

Fixpoint merge_loop (st : merge_state) (right_msgs : list BaseMessage.t)
  : Result merge_state :=
  match right_msgs with
  | [] => Ok st
  | m :: right_msgs => st' ← merge_step st m; merge_loop st' right_msgs
  end.

(** [add_messages(left, right)]: messages of [right] whose identifier is
    stored replace the stored message in place, a [RemoveMessage] deletes
    it, the others are appended. *)
Definition add_messages (left_msgs right_msgs : list BaseMessage.t)
  : Result (list BaseMessage.t) :=
  let l := assign_ids (next_uuid (left_msgs ++ right_msgs)) left_msgs in
  let r := assign_ids l.2 right_msgs in
  match after_remove_all r.1 with
  | Some rest => Ok rest
  | None =>
      st ← merge_loop
             {| merged := l.1;
                merged_by_id := index_by_id 0 l.1 ∅;
                ids_to_remove := ∅ |} r.1;
      Ok (filter (fun m => BaseMessage.id m ∉ ids_to_remove st) (merged st))
  end.

(** ** [agent.py]: the conversation state *)

(** The [tools] handed to the agent, by name. *)
Definition Tools : Type := list string.

(** The [response_format] of the prebuilt agent, the arguments the model
    produces for it and the validated response. *)
Inductive ResponseSchema : Type :=
  | AnswerResponse_schema
  | SummarizationResponse_schema
  | CalculationResponse_schema.

Inductive StructuredArgs : Type :=
  | AnswerArgs (a : AnswerResponse.args)
  | SummarizationArgs (a : SummarizationResponse.args)
  | CalculationArgs (a : CalculationResponse.args).

Inductive StructuredResponse : Type :=
  | Answer (r : AnswerResponse.t)
  | Summarization (r : SummarizationResponse.t)
  | Calculation (r : CalculationResponse.t).

(** The dictionary [agent.invoke] returns. *)
Module AgentResult.
Record t : Type := Build {
  messages : option (list BaseMessage.t);
  structured_response : StructuredResponse
}.
End AgentResult.

(** What the model and the tools produced in the agent's loop, before the
    structured response is validated against the schema. *)
Module AgentOutput.
Record t : Type := Build {
  messages : option (list BaseMessage.t);
  structured_args : StructuredArgs
}.
End AgentOutput.

(** [AgentState]: a channel without reducer is empty ([None]) until it is
    written; the two channels with a reducer ([messages] with
    [add_messages], [actions_taken] with [operator.add]) start as the empty
    list.  An [Optional[...]] value has its own [option]. *)
Module AgentState.
Record t : Type := Build {
  user_input : option (option string);
  messages : list BaseMessage.t;
  intent : option (option UserIntent.t);
  next_step : option string;
  conversation_summary : option string;
  active_documents : option (option PyStrList);
  current_response : option (option AgentResult.t);
  tools_used : option (list (option string));
  session_id : option (option string);
  user_id : option (option string);
  actions_taken : list string
}.

(** The state of a thread that has no checkpoint yet. *)
Definition empty : t :=
  Build None [] None None None None None None None None [].
End AgentState.

(** The partial state a node returns, or the caller passes as input: the
    keys that are present. *)
Module Update.
Record t : Type := Build {
  user_input : option (option string);
  messages : option (list BaseMessage.t);
  intent : option (option UserIntent.t);
  next_step : option string;
  conversation_summary : option string;
  active_documents : option (option PyStrList);
  current_response : option (option AgentResult.t);
  tools_used : option (list (option string));
  session_id : option (option string);
  user_id : option (option string);
  actions_taken : option (list string)
}.
End Update.

(** A channel without reducer keeps the last value written. *)
Definition last_value {A} (old new : option A) : option A :=
  match new with
  | Some v => Some v
  | None => old
  end.

(** The writes of an update applied to the channels: [messages] through
    [add_messages], [actions_taken] through [operator.add], the others
    overwritten. *)
Definition apply_update (s : AgentState.t) (u : Update.t)
  : Result AgentState.t :=
  msgs ← match Update.messages u with
          | Some right_msgs => add_messages (AgentState.messages s) right_msgs
          | None => Ok (AgentState.messages s)
          end;
  Ok {| AgentState.user_input :=
          last_value (AgentState.user_input s) (Update.user_input u);
        AgentState.messages := msgs;
        AgentState.intent :=
          last_value (AgentState.intent s) (Update.intent u);
        AgentState.next_step :=
          last_value (AgentState.next_step s) (Update.next_step u);
        AgentState.conversation_summary :=
          last_value (AgentState.conversation_summary s)
            (Update.conversation_summary u);
        AgentState.active_documents :=
          last_value (AgentState.active_documents s)
            (Update.active_documents u);
        AgentState.current_response :=
          last_value (AgentState.current_response s)
            (Update.current_response u);
        AgentState.tools_used :=
          last_value (AgentState.tools_used s) (Update.tools_used u);
        AgentState.session_id :=
          last_value (AgentState.session_id s) (Update.session_id u);
        AgentState.user_id :=
          last_value (AgentState.user_id s) (Update.user_id u);
        AgentState.actions_taken :=
          match Update.actions_taken u with
          | Some l => AgentState.actions_taken s ++ l
          | None => AgentState.actions_taken s
          end |}.

(** ** The collaborators: model, tools, configuration *)

(** The language model, as far as the nodes use it. *)
Record LLM : Type := {
  (** [llm.with_structured_output(UserIntent).invoke(prompt)]: the
      arguments the model produces for the schema. *)
  intent_call : string -> Result UserIntent.t;
  (** [llm.with_structured_output(UpdateMemoryResponse).invoke(prompt)]. *)
  memory_call : list BaseMessage.t -> Result UpdateMemoryResponse.args;
  (** [create_react_agent(model=llm.bind_tools(tools), tools=tools,
      response_format=schema).invoke({"messages": messages})]. *)
  agent_call :
    option Tools -> ResponseSchema -> list BaseMessage.t ->
    Result AgentOutput.t
}.

Record Configurable : Type := {
  llm : option LLM;
  tools : option Tools
}.

Record RunnableConfig : Type := {
  configurable : option Configurable
}.

(** [config.get("configurable").get(...)]: the attribute lookup fails on
    [None]. *)
Definition get_configurable (config : RunnableConfig) : Result Configurable :=
  match configurable config with
  | Some c => Ok c
  | None => Raise (AttributeError "'NoneType' object has no attribute 'get'")
  end.

(** A method call on the configured model; it fails when the model is
    [None]. *)
Definition the_llm (l : option LLM) (method : string) : Result LLM :=
  match l with
  | Some m => Ok m
  | None => Raise (AttributeError method)
  end.

(** [state[key]]. *)
Definition getitem {A} (key : string) (v : option A) : Result A :=
  match v with
  | Some a => Ok a
  | None => Raise (KeyError key)
  end.

(** ** Messages that are kept *)

(** No [RemoveMessage] among [ms]. *)
Definition no_remove (ms : list BaseMessage.t) : Prop :=
  Forall (fun m => BaseMessage.is_remove m = false) ms.

(** [new] retains [old]: it is at least as long, and every position of
    [old] still holds a message, with the identifier the old one had. *)
Definition retained (old new : list BaseMessage.t) : Prop :=
  length old ≤ length new ∧
  ∀ i m, old !! i = Some m →
    ∃ m', new !! i = Some m' ∧
      (is_Some (BaseMessage.id m) → BaseMessage.id m' = BaseMessage.id m).

(** ** Sample collaborators

    Concrete prompts, models and states, on which the properties below
    are exercised. *)

Definition sample_format_intent_prompt (user_input : option string)
    (conversation_history : list BaseMessage.t) : string :=
  String.append "Classify: " (default "None" user_input).

Definition sample_chat_prompt_template (kind : string)
    (input : option string) (chat_history : list BaseMessage.t)
  : list BaseMessage.t :=
  (BaseMessage.Build None SystemMessage kind None :: chat_history)
  ++ [BaseMessage.Build None HumanMessage (default "None" input) None].

(** An agent that returns the messages it was given, identifiers
    assigned, followed by its answer. *)
Definition sample_agent (reply : BaseMessage.t) (a : StructuredArgs)
    (tools : option Tools) (schema : ResponseSchema)
    (messages : list BaseMessage.t) : Result AgentOutput.t :=
  Ok {| AgentOutput.messages :=
          Some ((assign_ids (next_uuid messages) messages).1 ++ [reply]);
        AgentOutput.structured_args := a |}.

(** An agent that returns exactly [out]. *)
Definition fixed_agent (out : list BaseMessage.t) (a : StructuredArgs)
    (tools : option Tools) (schema : ResponseSchema)
    (messages : list BaseMessage.t) : Result AgentOutput.t :=
  Ok {| AgentOutput.messages := Some out;
        AgentOutput.structured_args := a |}.

Definition sample_llm (intent_type : string)
    (agent : option Tools -> ResponseSchema -> list BaseMessage.t ->
             Result AgentOutput.t) : LLM :=
  {| intent_call := fun _ =>
       Ok {| UserIntent.intent_type := intent_type;
             UserIntent.confidence := 0.95;
             UserIntent.reasoning := "sample" |};
     memory_call := fun _ =>
       Ok {| UpdateMemoryResponse.a_summary :=
               "The user asked about France.";
             UpdateMemoryResponse.a_document_ids := Some ["d1"] |};
     agent_call := agent |}.

Definition sample_config (m : LLM) : RunnableConfig :=
  {| configurable := Some {| llm := Some m; tools := Some ["calculator"] |} |}.

Definition paris : BaseMessage.t :=
  BaseMessage.Build (Some (GivenId "run-1")) AIMessage "Paris" None.

Definition paris_args : StructuredArgs :=
  AnswerArgs
    {| AnswerResponse.a_question := "What is the capital of France?";
       AnswerResponse.a_answer := "Paris";
       AnswerResponse.a_sources := Some ["encyclopedia"];
       AnswerResponse.a_confidence := 0.95;
       AnswerResponse.a_timestamp := None |}.

(** An answer the [AnswerResponse] validator rejects. *)
Definition unsupported_args : StructuredArgs :=
  AnswerArgs
    {| AnswerResponse.a_question := "What is the capital of France?";
       AnswerResponse.a_answer := "Paris";
       AnswerResponse.a_sources := Some [];
       AnswerResponse.a_confidence := 0.9;
       AnswerResponse.a_timestamp := None |}.

Definition qa_config : RunnableConfig :=
  sample_config (sample_llm "qa" (sample_agent paris paris_args)).

Definition unknown_config : RunnableConfig :=
  sample_config (sample_llm "unknown" (sample_agent paris paris_args)).

Definition rejected_config : RunnableConfig :=
  sample_config (sample_llm "qa" (sample_agent paris unsupported_args)).

(** The input of a turn: the user's text and the identity of the
    session. *)
Definition turn_input (text : string) : Update.t :=
  {| Update.user_input := Some (Some text);
     Update.messages := None;
     Update.intent := None;
     Update.next_step := None;
     Update.conversation_summary := None;
     Update.active_documents := None;
     Update.current_response := None;
     Update.tools_used := None;
     Update.session_id := Some (Some "session-1");
     Update.user_id := Some (Some "user-1");
     Update.actions_taken := None |}.

(** The state a first turn starts with. *)
Definition first_state : AgentState.t :=
  {| AgentState.user_input := Some (Some "What is the capital of France?");
     AgentState.messages := [];
     AgentState.intent := None;
     AgentState.next_step := None;
     AgentState.conversation_summary := None;
     AgentState.active_documents := None;
     AgentState.current_response := None;
     AgentState.tools_used := None;
     AgentState.session_id := Some (Some "session-1");
     AgentState.user_id := Some (Some "user-1");
     AgentState.actions_taken := [] |}.

Definition hello : BaseMessage.t :=
  BaseMessage.Build (Some (GivenId "m1")) HumanMessage "hello" None.

(** A message with the identifier of [hello] and another content, and a
    [RemoveMessage] for it. *)
Definition hello_rewritten : BaseMessage.t :=
  BaseMessage.Build (Some (GivenId "m1")) HumanMessage "goodbye" None.

Definition hello_removal : BaseMessage.t :=
  BaseMessage.Build (Some (GivenId "m1")) RemoveMessage "" None.

(** A state whose history holds [hello]. *)
Definition state_with_history : AgentState.t :=
  {| AgentState.user_input := Some (Some "What is the capital of France?");
     AgentState.messages := [hello];
     AgentState.intent := None;
     AgentState.next_step := None;
     AgentState.conversation_summary := Some "The user said hello.";
     AgentState.active_documents := Some (Some (PyList []));
     AgentState.current_response := None;
     AgentState.tools_used := None;
     AgentState.session_id := Some (Some "session-1");
     AgentState.user_id := Some (Some "user-1");
     AgentState.actions_taken := [] |}.

(** A tool result, and an agent whose answer follows a call of the
    calculator. *)
Definition calculator_result : BaseMessage.t :=
  BaseMessage.Build (Some (GivenId "tool-1")) ToolMessage "4"
    (Some "calculator").

Definition four : BaseMessage.t :=
  BaseMessage.Build (Some (GivenId "run-2")) AIMessage "2 + 2 = 4" None.

Definition four_args : StructuredArgs :=
  CalculationArgs
    {| CalculationResponse.a_expression := "2 + 2";
       CalculationResponse.a_result := 4.0;
       CalculationResponse.a_explanation := "addition";
       CalculationResponse.a_units := None;
       CalculationResponse.a_timestamp := None |}.

Definition calculation_config : RunnableConfig :=
  sample_config
    (sample_llm "calculation" (fixed_agent [calculator_result; four]
                                 four_args)).

Definition digest_args : StructuredArgs :=
  SummarizationArgs
    {| SummarizationResponse.a_original_length := 1200%Z;
       SummarizationResponse.a_summary := "Three contracts.";
       SummarizationResponse.a_key_points := [];
       SummarizationResponse.a_document_ids := Some ["d1"; "d2"; "d3"];
       SummarizationResponse.a_timestamp := None |}.

Definition summarization_config : RunnableConfig :=
  sample_config (sample_llm "summarization" (sample_agent four digest_args)).

(** An intent outside the schema. *)
Definition chitchat_config : RunnableConfig :=
  sample_config (sample_llm "chitchat" (sample_agent paris paris_args)).

(** Configurations without model. *)
Definition no_llm_config : RunnableConfig :=
  {| configurable := Some {| llm := None; tools := None |} |}.


(** An update whose messages are the stored greeting followed by the
    answer. *)
Definition greeting_and_answer : Update.t :=
  {| Update.user_input := None;
     Update.messages := Some ([hello] ++ [paris]);
     Update.intent := None;
     Update.next_step := None;
     Update.conversation_summary := None;
     Update.active_documents := None;
     Update.current_response := None;
     Update.tools_used := None;
     Update.session_id := None;
     Update.user_id := None;
     Update.actions_taken := None |}.

Section Agent.

(** The module [prompts] is imported by [agent.py]; what it renders is
    taken as given. *)

(** [get_intent_classification_prompt().format(user_input=...,
    conversation_history=...)]. *)
Variable format_intent_prompt :
  option string -> list BaseMessage.t -> string.

(** [get_chat_prompt_template(kind).invoke({"input": ...,
    "chat_history": ...}).to_messages()]. *)
Variable get_chat_prompt_template :
  string -> option string -> list BaseMessage.t -> list BaseMessage.t.

Variable MEMORY_SUMMARY_PROMPT : string.

(** The reading of the clock, for the [timestamp] defaults. *)
Variable now : datetime.

(** *** Structured outputs *)

Definition validate_response (schema : ResponseSchema) (a : StructuredArgs)
  : Result StructuredResponse :=
  match schema, a with
  | AnswerResponse_schema, AnswerArgs a =>
      r ← AnswerResponse.new now a; Ok (Answer r)
  | SummarizationResponse_schema, SummarizationArgs a =>
      r ← SummarizationResponse.new now a; Ok (Summarization r)
  | CalculationResponse_schema, CalculationArgs a =>
      r ← CalculationResponse.new now a; Ok (Calculation r)
  | _, _ => Raise (ValidationError "response_format" "schema")
  end.

(** [invoke_react_agent(response_schema, messages, llm, tools)]. *)
Definition invoke_react_agent (response_schema : ResponseSchema)
    (messages : list BaseMessage.t) (llm : option LLM)
    (tools : option Tools)
  : Result (AgentResult.t * list (option string)) :=
  m ← the_llm llm "bind_tools";
  out ← agent_call m tools response_schema messages;
  r ← validate_response response_schema (AgentOutput.structured_args out);
  let result :=
    {| AgentResult.messages := AgentOutput.messages out;
       AgentResult.structured_response := r |} in
  let tools_used :=
    BaseMessage.name <$>
      filter (fun t => BaseMessage.is_tool t = true)
        (default [] (AgentResult.messages result)) in
  Ok (result, tools_used).

(** *** The nodes *)

Definition classify_intent (state : AgentState.t) (config : RunnableConfig)
  : Result Update.t :=
  c ← get_configurable config;
  user_input ← getitem "user_input" (AgentState.user_input state);
  let formatted_prompt :=
    format_intent_prompt user_input (AgentState.messages state) in
  m ← the_llm (llm c) "with_structured_output";
  a ← intent_call m formatted_prompt;
  response ← UserIntent.new a;
  let next_step := UserIntent.intent_type response in
  Ok {| Update.user_input := None;
        Update.messages := None;
        Update.intent := Some (Some response);
        Update.next_step := Some next_step;
        Update.conversation_summary := None;
        Update.active_documents := None;
        Update.current_response := None;
        Update.tools_used := None;
        Update.session_id := None;
        Update.user_id := None;
        Update.actions_taken := Some ["classify_intent"] |}.

Definition qa_agent (state : AgentState.t) (config : RunnableConfig)
  : Result Update.t :=
  c ← get_configurable config;
  user_input ← getitem "user_input" (AgentState.user_input state);
  let messages :=
    get_chat_prompt_template "qa" user_input
      (AgentState.messages state) in
  r ← invoke_react_agent AnswerResponse_schema messages (llm c) (tools c);
  let result := r.1 in
  let tools_used := r.2 in
  Ok {| Update.user_input := None;
        Update.messages := Some (default [] (AgentResult.messages result));
        Update.intent := None;
        Update.next_step := Some "update_memory";
        Update.conversation_summary := None;
        Update.active_documents := None;
        Update.current_response := Some (Some result);
        Update.tools_used := Some tools_used;
        Update.session_id := None;
        Update.user_id := None;
        Update.actions_taken := Some ["qa_agent"] |}.

Definition summarization_agent (state : AgentState.t) (config : RunnableConfig)
  : Result Update.t :=
  c ← get_configurable config;
  user_input ← getitem "user_input" (AgentState.user_input state);
  let messages :=
    get_chat_prompt_template "summarization" user_input
      (AgentState.messages state) in
  r ← invoke_react_agent SummarizationResponse_schema messages (llm c) (tools c);
  let result := r.1 in
  let tools_used := r.2 in
  Ok {| Update.user_input := None;
        Update.messages := Some (default [] (AgentResult.messages result));
        Update.intent := None;
        Update.next_step := Some "update_memory";
        Update.conversation_summary := None;
        Update.active_documents := None;
        Update.current_response := Some (Some result);
        Update.tools_used := Some tools_used;
        Update.session_id := None;
        Update.user_id := None;
        Update.actions_taken := Some ["summarization_agent"] |}.

Definition calculation_agent (state : AgentState.t) (config : RunnableConfig)
  : Result Update.t :=
  c ← get_configurable config;
  user_input ← getitem "user_input" (AgentState.user_input state);
  let messages :=
    get_chat_prompt_template "calculation" user_input
      (AgentState.messages state) in
  r ← invoke_react_agent CalculationResponse_schema messages (llm c) (tools c);
  let result := r.1 in
  let tools_used := r.2 in
  Ok {| Update.user_input := None;
        Update.messages := Some (default [] (AgentResult.messages result));
        Update.intent := None;
        Update.next_step := Some "update_memory";
        Update.conversation_summary := None;
        Update.active_documents := None;
        Update.current_response := Some (Some result);
        Update.tools_used := Some tools_used;
        Update.session_id := None;
        Update.user_id := None;
        Update.actions_taken := Some ["calculation_agent"] |}.

(** The prompt of [update_memory]: the system message of the template,
    then the history. *)
Definition prompt_with_history (chat_history : list BaseMessage.t)
  : list BaseMessage.t :=
  {| BaseMessage.id := None;
     BaseMessage.type := SystemMessage;
     BaseMessage.content := MEMORY_SUMMARY_PROMPT;
     BaseMessage.name := None |} :: chat_history.

Definition update_memory (state : AgentState.t) (config : RunnableConfig)
  : Result Update.t :=
  c ← get_configurable config;
  m ← the_llm (llm c) "with_structured_output";
  a ← memory_call m (prompt_with_history (AgentState.messages state));
  response ← UpdateMemoryResponse.new a;
  Ok {| Update.user_input := None;
        Update.messages := None;
        Update.intent := None;
        Update.next_step := Some "end";
        Update.conversation_summary :=
          Some (UpdateMemoryResponse.summary response);
        Update.active_documents :=
          Some (Some (UpdateMemoryResponse.document_ids response));
        Update.current_response := None;
        Update.tools_used := None;
        Update.session_id := None;
        Update.user_id := None;
        Update.actions_taken := Some ["update_memory"] |}.

(** Router function: [state.get("next_step", "end")]. *)
Definition should_continue (state : AgentState.t) : string :=
  default "end" (AgentState.next_step state).

(** *** The graph *)

Definition START : string := "__start__".
Definition END : string := "__end__".

Definition Node : Type := AgentState.t -> RunnableConfig -> Result Update.t.

(** A conditional edge: the router and its path map. *)
Record Branch : Type := {
  path : AgentState.t -> string;
  ends : option (gmap string string)
}.

Record StateGraph : Type := {
  nodes : gmap string Node;
  edges : list (string * string);
  branches : gmap string Branch
}.

Definition new_graph : StateGraph :=
  {| nodes := ∅; edges := []; branches := ∅ |}.

Definition add_node (key : string) (action : Node) (g : StateGraph)
  : StateGraph :=
  {| nodes := <[key := action]> (nodes g);
     edges := edges g;
     branches := branches g |}.

Definition add_edge (start_key end_key : string) (g : StateGraph)
  : StateGraph :=
  {| nodes := nodes g;
     edges := edges g ++ [(start_key, end_key)];
     branches := branches g |}.

Definition set_entry_point (key : string) (g : StateGraph) : StateGraph :=
  add_edge START key g.

Definition add_conditional_edges (source : string)
    (path : AgentState.t -> string) (path_map : gmap string string)
    (g : StateGraph) : StateGraph :=
  {| nodes := nodes g;
     edges := edges g;
     branches :=
       <[source := {| path := path; ends := Some path_map |}]> (branches g) |}.

(** The mapping between the value returned by [should_continue] and the
    next node name. *)
Definition path_map : gmap string string :=
  {[ "qa" := "qa_agent";
     "summarization" := "summarization_agent";
     "calculation" := "calculation_agent";
     "end" := END ]}.

(** [create_workflow(llm, tools)]: neither argument is used, the nodes
    read both from the configuration of the call. *)
Definition create_workflow (llm : option LLM) (tools : option Tools)
  : StateGraph :=
  let workflow := new_graph in
  let workflow := add_node "classify_intent" classify_intent workflow in
  let workflow := add_node "qa_agent" qa_agent workflow in
  let workflow :=
    add_node "summarization_agent" summarization_agent workflow in
  let workflow := add_node "calculation_agent" calculation_agent workflow in
  let workflow := add_node "update_memory" update_memory workflow in
  let workflow := set_entry_point "classify_intent" workflow in
  let workflow :=
    add_conditional_edges "classify_intent" should_continue path_map
      workflow in
  let workflow := add_edge "qa_agent" "update_memory" workflow in
  let workflow := add_edge "summarization_agent" "update_memory" workflow in
  let workflow := add_edge "calculation_agent" "update_memory" workflow in
  let workflow := add_edge "update_memory" END workflow in
  workflow.


(** *** Running the graph

    The graph runs one node at a time.  A node's task calls the node,
    writes its update and evaluates the node's conditional edge on the
    state so updated; the path map is indexed with the router's result
    ([self.ends[r]]).  When any of these raises, the task fails and the
    turn ends with the exception, the state being the one before the
    task.  Otherwise the update is committed and the run continues at the
    destination, or ends when that is [END]. *)

(** The fixed edges leaving [n]. *)
Definition successors (g : StateGraph) (n : string) : list string :=
  (filter (fun e => e.1 = n) (edges g)).*2.

(** The destination chosen by the conditional edge of [n], if it has
    one. *)
Definition branch_to (g : StateGraph) (n : string) (s : AgentState.t)
  : Result (list string) :=
  match branches g !! n with
  | None => Ok []
  | Some b =>
      let r := path b s in
      match ends b with
      | None => Ok [r]
      | Some m =>
          match m !! r with
          | Some d => Ok [d]
          | None => Raise (KeyError r)
          end
      end
  end.

Definition destinations (g : StateGraph) (n : string) (s : AgentState.t)
  : Result (list string) :=
  ds ← branch_to g n s;
  Ok (filter (fun d => d ≠ END) (successors g n ++ ds)).

(** How a turn ends: completed with the final state, or aborted in the
    task of [node] with the last committed state.  [executed] lists the
    nodes whose task was committed, in order. *)
Inductive TurnResult : Type :=
  | Completed (executed : list string) (s : AgentState.t)
  | Aborted (executed : list string) (node : string) (e : PyExc)
      (s : AgentState.t).

(** A node called on [s], and its update written to the channels. *)
Definition commit (f : Node) (config : RunnableConfig) (s : AgentState.t)
  : Result AgentState.t :=
  u ← f s config; apply_update s u.

(** The task of node [n] on state [s]: the new state and where to go
    next. *)
Definition run_task (g : StateGraph) (config : RunnableConfig)
    (n : string) (s : AgentState.t)
  : Result (AgentState.t * list string) :=
  f ← match nodes g !! n with
       | Some f => Ok f
       | None => Raise (InvalidGraph n)
       end;
  s' ← commit f config s;
  ds ← destinations g n s';
  Ok (s', ds).

(** At most [limit] steps (the recursion limit of the call). *)
Fixpoint run_from (limit : nat) (g : StateGraph) (config : RunnableConfig)
    (executed : list string) (n : string) (s : AgentState.t)
  : TurnResult :=
  match limit with
  | 0 => Aborted executed n GraphRecursionError s
  | S limit =>
      match run_task g config n s with
      | Raise e => Aborted executed n e s
      | Ok (s', []) => Completed (executed ++ [n]) s'
      | Ok (s', [n']) => run_from limit g config (executed ++ [n]) n' s'
      | Ok (s', _ :: _ :: _) =>
          Aborted (executed ++ [n]) n
            (InvalidGraph "parallel branches are not modelled") s'
      end
  end.

Definition recursion_limit : nat := 25.

(** A run of the graph from its entry point on state [s]. *)
Definition run_graph (g : StateGraph) (config : RunnableConfig)
    (s : AgentState.t) : TurnResult :=
  match successors g START with
  | [n] => run_from recursion_limit g config [] n s
  | _ => Aborted [] START (InvalidGraph "entry point") s
  end.

(** [workflow.invoke(input, config)] on a thread whose checkpoint holds
    [checkpoint]: the input is written to the channels, then the graph
    runs. *)
Definition invoke (g : StateGraph) (config : RunnableConfig)
    (input : Update.t) (checkpoint : AgentState.t) : TurnResult :=
  match apply_update checkpoint input with
  | Ok s => run_graph g config s
  | Raise e => Aborted [] START e checkpoint
  end.

(** One turn of the assistant: a run of the workflow that
    [create_workflow(llm, tools)] builds, from the state the turn starts
    with. *)
Definition run_turn (llm : option LLM) (tools : option Tools)
    (config : RunnableConfig) (s : AgentState.t) : TurnResult :=
  run_graph (create_workflow llm tools) config s.

(** *** What a turn leaves behind *)

(** The state after a turn: the final state, or the last committed one
    when the turn was aborted. *)
Definition final_state (r : TurnResult) : AgentState.t :=
  match r with
  | Completed _ s => s
  | Aborted _ _ _ s => s
  end.

(** [s] with the [next_step] channel holding [x]. *)
Definition with_next_step (x : option string) (s : AgentState.t)
  : AgentState.t :=
  {| AgentState.user_input := AgentState.user_input s;
     AgentState.messages := AgentState.messages s;
     AgentState.intent := AgentState.intent s;
     AgentState.next_step := x;
     AgentState.conversation_summary := AgentState.conversation_summary s;
     AgentState.active_documents := AgentState.active_documents s;
     AgentState.current_response := AgentState.current_response s;
     AgentState.tools_used := AgentState.tools_used s;
     AgentState.session_id := AgentState.session_id s;
     AgentState.user_id := AgentState.user_id s;
     AgentState.actions_taken := AgentState.actions_taken s |}.

(** The schema a structured response is an instance of. *)
Definition schema_of (r : StructuredResponse) : ResponseSchema :=
  match r with
  | Answer _ => AnswerResponse_schema
  | Summarization _ => SummarizationResponse_schema
  | Calculation _ => CalculationResponse_schema
  end.

(** [[t.name for t in messages if isinstance(t, ToolMessage)]]. *)
Definition tool_names (messages : list BaseMessage.t)
  : list (option string) :=
  BaseMessage.name <$>
    filter (fun t => BaseMessage.is_tool t = true) messages.

(** The response schema each task handler passes to the agent. *)
Definition handler_schema : list (string * ResponseSchema) :=
  [("qa_agent", AnswerResponse_schema);
   ("summarization_agent", SummarizationResponse_schema);
   ("calculation_agent", CalculationResponse_schema)].

(** The nodes that [create_workflow] adds. *)
Definition workflow_nodes : list (string * Node) :=
  [("classify_intent", classify_intent);
   ("qa_agent", qa_agent);
   ("summarization_agent", summarization_agent);
   ("calculation_agent", calculation_agent);
   ("update_memory", update_memory)].

(** The nodes whose task a turn committed, in order. *)
Definition executed_nodes (r : TurnResult) : list string :=
  match r with
  | Completed executed _ => executed
  | Aborted executed _ _ _ => executed
  end.

(** [s'] is reached from [s] by committing the nodes named [ns], one
    after the other. *)
Inductive commits (config : RunnableConfig)
  : AgentState.t → list string → AgentState.t → Prop :=
  | commits_nil s : commits config s [] s
  | commits_cons s n f s1 ns s2 :
      (n, f) ∈ workflow_nodes →
      commit f config s = Ok s1 →
      commits config s1 ns s2 →
      commits config s (n :: ns) s2.

(** The task handler each intent type is routed to. *)
Definition intent_handler : list (string * string) :=
  [("qa", "qa_agent");
   ("summarization", "summarization_agent");
   ("calculation", "calculation_agent")].

(** ** Proof support *)

(** Case analysis of a sequence of calls that returned. *)
Ltac returned H :=
  repeat match type of H with
  | mbind _ ?m = Ok _ =>
      let E := fresh "E" in
      destruct m eqn:E; simpl in H; [|discriminate H]
  end.

(** A completed turn in which no [RemoveMessage] was written, neither
    by the input nor by the result of the task handler. *)
Definition clean_turn (llm0 : option LLM) (tools0 : option Tools)
    (s s' : AgentState.t) : Prop :=
  ∃ config input executed,
    invoke (create_workflow llm0 tools0) config input s
    = Completed executed s'
    ∧ no_remove (default [] (Update.messages input))
    ∧ ∀ result,
        AgentState.current_response s' = Some (Some result) →
        no_remove (default [] (AgentResult.messages result)).

Lemma bind_Ok {A B} (f : A → Result B) (a : A) : (Ok a ≫= f) = f a.
Proof. reflexivity. Qed.

Lemma bind_Raise {A B} (f : A → Result B) (e : PyExc) :
  (Raise e ≫= f) = Raise e.
Proof. reflexivity. Qed.

(** The task handler each routing key leads to. *)
Definition routes : list (string * (string * Node)) :=
  [("qa", ("qa_agent", qa_agent));
   ("summarization", ("summarization_agent", summarization_agent));
   ("calculation", ("calculation_agent", calculation_agent))].

(** The rest of a turn that was routed to the task handler [h]. *)
Definition after_classification (h : string) (f : Node)
    (config : RunnableConfig) (s1 : AgentState.t) : TurnResult :=
  match commit f config s1 with
  | Raise e => Aborted ["classify_intent"] h e s1
  | Ok s2 =>
      match commit update_memory config s2 with
      | Raise e => Aborted ["classify_intent"; h] "update_memory" e s2
      | Ok s3 => Completed ["classify_intent"; h; "update_memory"] s3
      end
  end.

(** ** Properties of the response types *)

(** With the sources given as the empty list, a confidence of 0.7 or
    more is rejected. *)
Lemma AnswerResponse_rejects_empty_sources q a c ts :
  PrimFloat.leb 0.7 c = true →
  is_Ok (AnswerResponse.new now (AnswerResponse.Args q a (Some []) c ts))
  = false.
Proof.
  intros Hc. unfold AnswerResponse.new,
    AnswerResponse.validate_sources_with_confidence. simpl.
  destruct (unit_interval c); [|done]. by rewrite Hc.
Qed.

(** With the sources given as the empty list, a confidence within
    [0, 1] is accepted exactly when it is below 0.7. *)
Lemma AnswerResponse_empty_sources_threshold q a c ts :
  unit_interval c = true →
  is_Ok (AnswerResponse.new now (AnswerResponse.Args q a (Some []) c ts))
  = negb (PrimFloat.leb 0.7 c).
Proof.
  intros Hc. unfold AnswerResponse.new,
    AnswerResponse.validate_sources_with_confidence. simpl.
  rewrite Hc. by destruct (PrimFloat.leb 0.7 c).
Qed.

(** When the sources are passed, an accepted response of confidence 0.7
    or more has at least one source. *)
Lemma AnswerResponse_given_sources_nonempty args l r :
  AnswerResponse.a_sources args = Some l →
  AnswerResponse.new now args = Ok r →
  PrimFloat.leb 0.7 (AnswerResponse.confidence r) = true →
  has_source (AnswerResponse.sources r) = true.
Proof.
  destruct args as [q a src c ts]. simpl. intros ->.
  unfold AnswerResponse.new,
    AnswerResponse.validate_sources_with_confidence. simpl.
  destruct (unit_interval c); [|done].
  destruct (PrimFloat.leb 0.7 c) eqn:Hc, l as [|x l]; simpl;
    intros [= <-]; simpl; congruence.
Qed.

(** When the sources are omitted, every confidence within [0, 1] is
    accepted, and the field holds the class [list]. *)
Lemma AnswerResponse_omitted_sources q a c ts :
  unit_interval c = true →
  AnswerResponse.new now (AnswerResponse.Args q a None c ts)
  = Ok (AnswerResponse.Build q a PyListClass c (timestamp_field now ts)).
Proof.
  intros Hc. unfold AnswerResponse.new,
    AnswerResponse.validate_sources_with_confidence. simpl.
  rewrite Hc. by rewrite andb_false_r.
Qed.

(** C2, evaluated on the code: a construction with confidence 0.9 that
    omits [sources] is accepted, although the response has a confidence
    of at least 0.7 and no source; with [sources=[]] the same
    construction is rejected. *)
Theorem AnswerResponse_high_confidence_without_sources :
  AnswerResponse.new now (AnswerResponse.Args "q" "a" None 0.9 None)
  = Ok (AnswerResponse.Build "q" "a" PyListClass 0.9 now)
  ∧ PrimFloat.leb 0.7 0.9 = true
  ∧ has_source PyListClass = false
  ∧ is_Ok (AnswerResponse.new now
             (AnswerResponse.Args "q" "a" (Some []) 0.9 None)) = false.
Proof. done. Qed.

(** C10, evaluated on the code: an omitted [sources] does not default to
    the empty list but to the class [list], which the validator takes
    for non-empty; at confidence 0.7 the construction without [sources]
    is accepted, the one with [sources=[]] rejected. *)
Theorem AnswerResponse_default_sources_not_empty_list :
  AnswerResponse.new now (AnswerResponse.Args "q" "a" None 0.5 None)
  = Ok (AnswerResponse.Build "q" "a" PyListClass 0.5 now)
  ∧ PyListClass ≠ PyList []
  ∧ AnswerResponse.new now (AnswerResponse.Args "q" "a" None 0.7 None)
    = Ok (AnswerResponse.Build "q" "a" PyListClass 0.7 now)
  ∧ is_Ok (AnswerResponse.new now
             (AnswerResponse.Args "q" "a" (Some []) 0.7 None)) = false.
Proof. done. Qed.

(** ** Properties of the reducer *)

(** [m'] is [m] after the assignment of identifiers counting from
    [ctr]. *)
Definition assigned (ctr : nat) (m m' : BaseMessage.t) : Prop :=
  BaseMessage.type m' = BaseMessage.type m ∧
  ((is_Some (BaseMessage.id m) ∧ m' = m)
   ∨ (BaseMessage.id m = None ∧
      ∃ n, ctr ≤ n ∧ m' = BaseMessage.with_id (Uuid n) m)).

Lemma assign_ids_assigned ms :
  ∀ ctr, Forall2 (assigned ctr) ms (assign_ids ctr ms).1.
Proof.
  induction ms as [|m ms IH]; intros ctr; simpl; [constructor|].
  destruct (BaseMessage.id m) as [k|] eqn:Hid; simpl.
  - constructor; [|apply IH]. split; [done|]. left. rewrite Hid. eauto.
  - constructor.
    + split; [done|]. right. split; [done|]. by exists ctr.
    + eapply Forall2_impl; [apply IH|].
      intros x y [Ht [H|(Hn & n & Hle & ->)]]; (split; [done|]);
        [by left|].
      right. split; [done|]. exists n. split; [lia|done].
Qed.

Lemma assign_ids_counter ms : ∀ ctr, ctr ≤ (assign_ids ctr ms).2.
Proof.
  induction ms as [|m ms IH]; intros ctr; simpl; [done|].
  destruct (BaseMessage.id m); simpl; [apply IH|].
  specialize (IH (S ctr)). lia.
Qed.

Lemma assigned_from ctr ctr' m m' :
  ctr ≤ ctr' → assigned ctr' m m' → assigned ctr m m'.
Proof.
  intros Hle [Ht [H|(Hn & n & Hn' & ->)]]; (split; [done|]); [by left|].
  right. split; [done|]. exists n. split; [lia|done].
Qed.

Lemma assign_ids_no_remove ctr ms :
  no_remove ms → no_remove (assign_ids ctr ms).1.
Proof.
  unfold no_remove. intros Hms.
  pose proof (assign_ids_assigned ms ctr) as Ha.
  induction Ha as [|m m' ms ms' [Ht _] _ IH]; [constructor|].
  inversion Hms; subst. constructor; [|by apply IH].
  unfold BaseMessage.is_remove in *. by rewrite Ht.
Qed.

Lemma after_remove_all_no_remove ms :
  no_remove ms → after_remove_all ms = None.
Proof.
  induction 1 as [|m ms Hm _ IH]; simpl; [done|]. by rewrite IH, Hm.
Qed.

(** Every entry of the index points at a message with that
    identifier. *)
Definition indexes (d : gmap (option MsgId) nat)
    (ms : list BaseMessage.t) : Prop :=
  ∀ k i, d !! k = Some i →
    ∃ m, ms !! i = Some m ∧ BaseMessage.id m = k.

Lemma index_by_id_indexes ms :
  ∀ pre d,
    indexes d (pre ++ ms) →
    indexes (index_by_id (length pre) ms d) (pre ++ ms).
Proof.
  induction ms as [|m ms IH]; intros pre d Hd; simpl; [done|].
  replace (pre ++ m :: ms) with ((pre ++ [m]) ++ ms)
    by (by rewrite <- app_assoc).
  replace (S (length pre)) with (length (pre ++ [m]))
    by (rewrite length_app; simpl; lia).
  apply IH. intros k i Hk. rewrite <- app_assoc. simpl.
  apply lookup_insert_Some in Hk as [[<- <-]|[Hne Hk]].
  - exists m. split; [|done]. by apply list_lookup_middle.
  - by apply Hd in Hk.
Qed.

Lemma merge_step_kept st m st' :
  BaseMessage.is_remove m = false →
  indexes (merged_by_id st) (merged st) →
  ids_to_remove st = ∅ →
  merge_step st m = Ok st' →
  indexes (merged_by_id st') (merged st')
  ∧ ids_to_remove st' = ∅
  ∧ length (merged st) ≤ length (merged st')
  ∧ ∀ i x, merged st !! i = Some x →
      ∃ x', merged st' !! i = Some x'
        ∧ BaseMessage.id x' = BaseMessage.id x
        ∧ (BaseMessage.id m ≠ BaseMessage.id x → x' = x).
Proof.
  intros Hm Hidx Hrm. unfold merge_step. rewrite Hm.
  destruct (merged_by_id st !! BaseMessage.id m) as [j|] eqn:Hj;
    intros [= <-]; simpl.
  - destruct (Hidx _ _ Hj) as (y & Hy & Hyid).
    assert (Hlt : j < length (merged st)) by (by eapply lookup_lt_Some).
    split; [|split; [|split]].
    + intros k i Hk. destruct (Hidx _ _ Hk) as (z & Hz & Hzid).
      destruct (decide (i = j)) as [->|Hne].
      * exists m. rewrite list_lookup_insert_eq by done.
        split; [done|]. congruence.
      * exists z. by rewrite list_lookup_insert_ne.
    + rewrite Hrm. apply set_eq. intros k.
      rewrite elem_of_difference, elem_of_empty. tauto.
    + by rewrite length_insert.
    + intros i x Hx. destruct (decide (i = j)) as [->|Hne].
      * exists m. rewrite list_lookup_insert_eq by done.
        assert (x = y) as -> by congruence.
        split; [done|]. split; [done|]. intros Hne. by destruct Hne.
      * exists x. by rewrite list_lookup_insert_ne.
  - split; [|split; [|split]].
    + intros k i Hk.
      apply lookup_insert_Some in Hk as [[<- <-]|[Hne Hk]].
      * exists m. split; [|done]. by apply list_lookup_middle.
      * destruct (Hidx _ _ Hk) as (z & Hz & Hzid).
        exists z. split; [|done]. by apply lookup_app_l_Some.
    + done.
    + rewrite length_app. lia.
    + intros i x Hx. exists x. split; [by apply lookup_app_l_Some|done].
Qed.

Lemma merge_loop_kept right_msgs :
  ∀ st st',
    no_remove right_msgs →
    indexes (merged_by_id st) (merged st) →
    ids_to_remove st = ∅ →
    merge_loop st right_msgs = Ok st' →
    ids_to_remove st' = ∅
    ∧ length (merged st) ≤ length (merged st')
    ∧ ∀ i x, merged st !! i = Some x →
        ∃ x', merged st' !! i = Some x'
          ∧ BaseMessage.id x' = BaseMessage.id x
          ∧ ((∀ r, r ∈ right_msgs →
                BaseMessage.id r ≠ BaseMessage.id x) → x' = x).
Proof.
  induction right_msgs as [|m ms IH]; intros st st' Hnr Hidx Hrm; simpl.
  - intros [= <-]. split; [done|]. split; [done|]. eauto.
  - inversion Hnr as [|? ? Hm Hms]; subst.
    destruct (merge_step st m) as [st1|e] eqn:Hstep; [|done].
    rewrite bind_Ok. intros Hloop.
    destruct (merge_step_kept _ _ _ Hm Hidx Hrm Hstep)
      as (Hidx1 & Hrm1 & Hlen1 & Hkeep1).
    destruct (IH _ _ Hms Hidx1 Hrm1 Hloop) as (Hrm' & Hlen' & Hkeep').
    split; [done|]. split; [lia|].
    intros i x Hx.
    destruct (Hkeep1 _ _ Hx) as (x1 & Hx1 & Hid1 & Hsame1).
    destruct (Hkeep' _ _ Hx1) as (x' & Hx' & Hid' & Hsame').
    exists x'. split; [done|]. split; [congruence|].
    intros Hfresh.
    assert (x1 = x) as -> by (apply Hsame1, Hfresh; by left).
    apply Hsame'. intros r Hr. apply Hfresh. by right.
Qed.

Lemma filter_all {A} (P : A → Prop) `{∀ x, Decision (P x)} (l : list A) :
  Forall P l → filter P l = l.
Proof.
  induction 1 as [|x l Hx _ IH]; [done|].
  by rewrite filter_cons_True, IH.
Qed.

Lemma next_uuid_above ms m n :
  m ∈ ms → BaseMessage.id m = Some (Uuid n) → n < next_uuid ms.
Proof.
  intros Hm Hid. unfold next_uuid.
  assert (uuid_index m ∈ uuid_index <$> ms) as Hin
    by (by apply list_elem_of_fmap_2).
  apply max_list_elem_of_le in Hin. unfold uuid_index in Hin at 1.
  rewrite Hid in Hin. lia.
Qed.

(** A merge without [RemoveMessage] retains the stored messages; one
    whose identifier is not among the incoming ones is left as it is. *)
Lemma add_messages_kept left_msgs right_msgs out :
  no_remove right_msgs →
  add_messages left_msgs right_msgs = Ok out →
  retained left_msgs out
  ∧ ∀ i m, left_msgs !! i = Some m →
      is_Some (BaseMessage.id m) →
      (∀ r, r ∈ right_msgs → BaseMessage.id r ≠ BaseMessage.id m) →
      out !! i = Some m.
Proof.
  intros Hnr. unfold add_messages.
  pose proof (assign_ids_assigned left_msgs
                (next_uuid (left_msgs ++ right_msgs))) as Hl.
  pose proof (assign_ids_counter left_msgs
                (next_uuid (left_msgs ++ right_msgs))) as Hc.
  destruct (assign_ids (next_uuid (left_msgs ++ right_msgs)) left_msgs)
    as [l1 c1]. simpl in *.
  pose proof (assign_ids_assigned right_msgs c1) as Hr.
  pose proof (assign_ids_no_remove c1 _ Hnr) as Hnr'.
  destruct (assign_ids c1 right_msgs) as [r1 c2]. simpl in *.
  rewrite (after_remove_all_no_remove _ Hnr').
  destruct (merge_loop _ r1) as [st|e] eqn:Hloop; [|done].
  rewrite bind_Ok. intros [= <-].
  eapply merge_loop_kept in Hloop as (Hrm & Hlen & Hkeep);
    [|done|apply (index_by_id_indexes l1 [] ∅); by intros k i|done].
  simpl in *. rewrite filter_all; last first.
  { rewrite Hrm. apply Forall_forall. intros x _. apply not_elem_of_empty. }
  split.
  - split.
    + apply Forall2_length in Hl. lia.
    + intros i m Hm.
      destruct (Forall2_lookup_l _ _ _ _ _ Hl Hm) as (m1 & Hm1 & Ha).
      destruct (Hkeep _ _ Hm1) as (x' & Hx' & Hid' & _).
      exists x'. split; [done|]. intros Hsome.
      destruct Ha as [_ [[_ ->]|[Hnone _]]]; [done|].
      rewrite Hnone in Hsome. by destruct Hsome.
  - intros i m Hm Hsome Hfresh.
    destruct (Forall2_lookup_l _ _ _ _ _ Hl Hm) as (m1 & Hm1 & Ha).
    assert (m1 = m) as ->.
    { destruct Ha as [_ [[_ ->]|[Hnone _]]]; [done|].
      rewrite Hnone in Hsome. by destruct Hsome. }
    destruct (Hkeep _ _ Hm1) as (x' & Hx' & _ & Hsame).
    rewrite Hx'. f_equal. apply Hsame.
    intros r' Hr'. apply list_elem_of_lookup in Hr' as [j Hj].
    destruct (Forall2_lookup_r _ _ _ _ _ Hr Hj) as (r0 & Hr0 & Har).
    destruct Har as [_ [[_ ->]|(_ & n & Hn & ->)]].
    + apply Hfresh. by eapply list_elem_of_lookup_2.
    + simpl. intros Heq.
      assert (n < next_uuid (left_msgs ++ right_msgs)); [|lia].
      eapply next_uuid_above; [|by symmetry].
      apply elem_of_app. left. by eapply list_elem_of_lookup_2.
Qed.

Lemma retained_refl ms : retained ms ms.
Proof. split; [done|]. eauto. Qed.

Lemma retained_trans ms1 ms2 ms3 :
  retained ms1 ms2 → retained ms2 ms3 → retained ms1 ms3.
Proof.
  intros [Hl1 H1] [Hl2 H2]. split; [lia|].
  intros i m Hm.
  destruct (H1 _ _ Hm) as (m2 & Hm2 & Hid2).
  destruct (H2 _ _ Hm2) as (m3 & Hm3 & Hid3).
  exists m3. split; [done|]. intros Hsome.
  rewrite Hid3; [by apply Hid2|]. by rewrite Hid2.
Qed.

(** ** Properties of the nodes *)

Lemma apply_update_fields s u s' :
  apply_update s u = Ok s' →
  AgentState.conversation_summary s'
  = last_value (AgentState.conversation_summary s)
      (Update.conversation_summary u) ∧
  AgentState.active_documents s'
  = last_value (AgentState.active_documents s)
      (Update.active_documents u) ∧
  AgentState.next_step s'
  = last_value (AgentState.next_step s) (Update.next_step u) ∧
  AgentState.current_response s'
  = last_value (AgentState.current_response s)
      (Update.current_response u) ∧
  AgentState.actions_taken s'
  = AgentState.actions_taken s ++ default [] (Update.actions_taken u) ∧
  match Update.messages u with
  | Some right_msgs =>
      add_messages (AgentState.messages s) right_msgs
      = Ok (AgentState.messages s')
  | None => AgentState.messages s' = AgentState.messages s
  end.
Proof.
  unfold apply_update. intros H.
  destruct (Update.messages u) as [r|].
  - destruct (add_messages _ r) as [msgs|e]; [|done].
    rewrite bind_Ok in H. injection H as <-. simpl.
    repeat split. destruct (Update.actions_taken u); simpl; [done|].
    by rewrite app_nil_r.
  - rewrite bind_Ok in H. injection H as <-. simpl.
    repeat split. destruct (Update.actions_taken u); simpl; [done|].
    by rewrite app_nil_r.
Qed.

(** What [classify_intent] returns. *)
Lemma classify_intent_returns state config u :
  classify_intent state config = Ok u →
  ∃ c m user_input response,
    configurable config = Some c ∧ llm c = Some m ∧
    AgentState.user_input state = Some user_input ∧
    intent_call m
      (format_intent_prompt user_input (AgentState.messages state))
    = Ok response ∧
    UserIntent.intent_type response ∈ UserIntent.intent_types ∧
    u = {| Update.user_input := None;
           Update.messages := None;
           Update.intent := Some (Some response);
           Update.next_step := Some (UserIntent.intent_type response);
           Update.conversation_summary := None;
           Update.active_documents := None;
           Update.current_response := None;
           Update.tools_used := None;
           Update.session_id := None;
           Update.user_id := None;
           Update.actions_taken := Some ["classify_intent"] |}.
Proof.
  unfold classify_intent, get_configurable, getitem, the_llm.
  intros H.
  destruct (configurable config) as [c|] eqn:Hc; simpl in H; [|done].
  destruct (AgentState.user_input state) as [ui|] eqn:Hui; simpl in H;
    [|done].
  destruct (llm c) as [m|] eqn:Hm; simpl in H; [|done].
  returned H.
  unfold UserIntent.new in E0.
  case_bool_decide as Hty; [|done].
  destruct (unit_interval _); [|done].
  injection E0 as <-. injection H as <-.
  by exists c, m, ui, a.
Qed.

(** What [update_memory] returns. *)
Lemma update_memory_returns state config u :
  update_memory state config = Ok u →
  ∃ c m a response,
    configurable config = Some c ∧ llm c = Some m ∧
    memory_call m (prompt_with_history (AgentState.messages state))
    = Ok a ∧
    UpdateMemoryResponse.new a = Ok response ∧
    u = {| Update.user_input := None;
           Update.messages := None;
           Update.intent := None;
           Update.next_step := Some "end";
           Update.conversation_summary :=
             Some (UpdateMemoryResponse.summary response);
           Update.active_documents :=
             Some (Some (UpdateMemoryResponse.document_ids response));
           Update.current_response := None;
           Update.tools_used := None;
           Update.session_id := None;
           Update.user_id := None;
           Update.actions_taken := Some ["update_memory"] |}.
Proof.
  unfold update_memory, get_configurable, the_llm.
  intros H.
  destruct (configurable config) as [c|] eqn:Hc; simpl in H; [|done].
  destruct (llm c) as [m|] eqn:Hm; simpl in H; [|done].
  returned H. injection H as <-.
  exists c, m, a. eexists. by repeat split.
Qed.

(** The update of a task handler that returned. *)
Lemma qa_agent_update state config u :
  qa_agent state config = Ok u →
  ∃ result tools_used,
    u = {| Update.user_input := None;
           Update.messages :=
             Some (default [] (AgentResult.messages result));
           Update.intent := None;
           Update.next_step := Some "update_memory";
           Update.conversation_summary := None;
           Update.active_documents := None;
           Update.current_response := Some (Some result);
           Update.tools_used := Some tools_used;
           Update.session_id := None;
           Update.user_id := None;
           Update.actions_taken := Some ["qa_agent"] |}.
Proof.
  unfold qa_agent. intros H. returned H. injection H as <-. eauto.
Qed.

Lemma summarization_agent_update state config u :
  summarization_agent state config = Ok u →
  ∃ result tools_used,
    u = {| Update.user_input := None;
           Update.messages :=
             Some (default [] (AgentResult.messages result));
           Update.intent := None;
           Update.next_step := Some "update_memory";
           Update.conversation_summary := None;
           Update.active_documents := None;
           Update.current_response := Some (Some result);
           Update.tools_used := Some tools_used;
           Update.session_id := None;
           Update.user_id := None;
           Update.actions_taken := Some ["summarization_agent"] |}.
Proof.
  unfold summarization_agent. intros H. returned H. injection H as <-.
  eauto.
Qed.

Lemma calculation_agent_update state config u :
  calculation_agent state config = Ok u →
  ∃ result tools_used,
    u = {| Update.user_input := None;
           Update.messages :=
             Some (default [] (AgentResult.messages result));
           Update.intent := None;
           Update.next_step := Some "update_memory";
           Update.conversation_summary := None;
           Update.active_documents := None;
           Update.current_response := Some (Some result);
           Update.tools_used := Some tools_used;
           Update.session_id := None;
           Update.user_id := None;
           Update.actions_taken := Some ["calculation_agent"] |}.
Proof.
  unfold calculation_agent. intros H. returned H. injection H as <-.
  eauto.
Qed.

(** ** Properties of the graph *)

Definition task_handlers : list string :=
  ["qa_agent"; "summarization_agent"; "calculation_agent"].

Section Workflow.

Variables (llm0 : option LLM) (tools0 : option Tools).

Local Abbreviation workflow := (create_workflow llm0 tools0).

Lemma entry_point : successors workflow START = ["classify_intent"].
Proof. reflexivity. Qed.

Lemma node_classify_intent :
  nodes workflow !! "classify_intent" = Some classify_intent.
Proof. reflexivity. Qed.

Lemma node_qa_agent : nodes workflow !! "qa_agent" = Some qa_agent.
Proof. reflexivity. Qed.

Lemma node_summarization_agent :
  nodes workflow !! "summarization_agent" = Some summarization_agent.
Proof. reflexivity. Qed.

Lemma node_calculation_agent :
  nodes workflow !! "calculation_agent" = Some calculation_agent.
Proof. reflexivity. Qed.

Lemma node_update_memory :
  nodes workflow !! "update_memory" = Some update_memory.
Proof. reflexivity. Qed.

(** The keys of the path map. *)
Lemma path_map_lookup k d :
  path_map !! k = Some d ↔
  (k = "qa" ∧ d = "qa_agent")
  ∨ (k = "summarization" ∧ d = "summarization_agent")
  ∨ (k = "calculation" ∧ d = "calculation_agent")
  ∨ (k = "end" ∧ d = END).
Proof.
  unfold path_map. rewrite !lookup_insert_Some, lookup_singleton_Some.
  split.
  - intros [[<- <-]|[? [[<- <-]|[? [[<- <-]|[? [<- <-]]]]]]]; auto.
  - intros [[-> ->]|[[-> ->]|[[-> ->]|[-> ->]]]]; auto 10.
Qed.

Lemma destinations_classify_intent s :
  destinations workflow "classify_intent" s
  = match path_map !! should_continue s with
    | Some d => Ok (filter (fun d => d ≠ END) [d])
    | None => Raise (KeyError (should_continue s))
    end.
Proof.
  unfold destinations, branch_to.
  change (branches workflow !! "classify_intent")
    with (Some {| path := should_continue; ends := Some path_map |}).
  simpl. by destruct (path_map !! should_continue s).
Qed.

Lemma destinations_task_handler h s :
  h ∈ task_handlers →
  destinations workflow h s = Ok ["update_memory"].
Proof.
  unfold task_handlers. rewrite !elem_of_cons, elem_of_nil.
  intros [->|[->|[->|[]]]]; reflexivity.
Qed.

Lemma destinations_update_memory s :
  destinations workflow "update_memory" s = Ok [].
Proof. reflexivity. Qed.

Lemma destinations_classified s k h f :
  (k, (h, f)) ∈ routes →
  should_continue s = k →
  destinations workflow "classify_intent" s = Ok [h].
Proof.
  unfold routes. rewrite !elem_of_cons, elem_of_nil.
  intros Hk Hs. rewrite destinations_classify_intent, Hs.
  by destruct Hk as [[= -> -> _]|[[= -> -> _]|[[= -> -> _]|[]]]].
Qed.

Lemma destinations_unknown s :
  should_continue s = "unknown" →
  destinations workflow "classify_intent" s = Raise (KeyError "unknown").
Proof. intros Hs. by rewrite destinations_classify_intent, Hs. Qed.

Lemma routes_task_handler k h f :
  (k, (h, f)) ∈ routes →
  h ∈ task_handlers ∧ nodes workflow !! h = Some f.
Proof.
  unfold routes, task_handlers. intros Hr.
  rewrite !elem_of_cons, elem_of_nil in Hr.
  destruct Hr as [[= -> -> ->]|[[= -> -> ->]|[[= -> -> ->]|[]]]];
    (split; [rewrite !elem_of_cons; auto|reflexivity]).
Qed.

Lemma run_task_node config n f s :
  nodes workflow !! n = Some f →
  run_task workflow config n s
  = (s' ← commit f config s;
     ds ← destinations workflow n s';
     Ok (s', ds)).
Proof. intros Hf. unfold run_task. by rewrite Hf. Qed.

Lemma run_from_abort limit config executed n s e :
  run_task workflow config n s = Raise e →
  run_from (S limit) workflow config executed n s
  = Aborted executed n e s.
Proof. intros Ht. simpl. by rewrite Ht. Qed.

Lemma run_from_next limit config executed n s s' n' :
  run_task workflow config n s = Ok (s', [n']) →
  run_from (S limit) workflow config executed n s
  = run_from limit workflow config (executed ++ [n]) n' s'.
Proof. intros Ht. simpl. by rewrite Ht. Qed.

Lemma run_from_end limit config executed n s s' :
  run_task workflow config n s = Ok (s', []) →
  run_from (S limit) workflow config executed n s
  = Completed (executed ++ [n]) s'.
Proof. intros Ht. simpl. by rewrite Ht. Qed.

(** A turn routed to a task handler runs the handler, then
    [update_memory]. *)
Lemma run_from_task_handler limit config k h f s1 :
  (k, (h, f)) ∈ routes →
  run_from (S (S limit)) workflow config ["classify_intent"] h s1
  = after_classification h f config s1.
Proof.
  intros Hr. destruct (routes_task_handler _ _ _ Hr) as [Hh Hf].
  unfold after_classification.
  destruct (commit f config s1) as [s2|e] eqn:Hs2.
  - erewrite run_from_next; last first.
    { by rewrite (run_task_node _ _ _ _ Hf), Hs2, bind_Ok,
        (destinations_task_handler _ _ Hh), bind_Ok. }
    destruct (commit update_memory config s2) as [s3|e] eqn:Hs3.
    + erewrite run_from_end; [done|].
      by rewrite (run_task_node _ _ _ _ node_update_memory), Hs3,
        bind_Ok, destinations_update_memory, bind_Ok.
    + erewrite run_from_abort; [done|].
      by rewrite (run_task_node _ _ _ _ node_update_memory), Hs3,
        bind_Raise.
  - erewrite run_from_abort; [done|].
    by rewrite (run_task_node _ _ _ _ Hf), Hs2, bind_Raise.
Qed.

(** The course of a turn whose classification returned. *)
Lemma run_turn_classified config s u :
  classify_intent s config = Ok u →
  ∃ response s1,
    Update.next_step u = Some (UserIntent.intent_type response) ∧
    apply_update s u = Ok s1 ∧
    AgentState.messages s1 = AgentState.messages s ∧
    AgentState.conversation_summary s1
    = AgentState.conversation_summary s ∧
    AgentState.active_documents s1 = AgentState.active_documents s ∧
    AgentState.actions_taken s1
    = AgentState.actions_taken s ++ ["classify_intent"] ∧
    ((UserIntent.intent_type response = "unknown" ∧
      run_turn llm0 tools0 config s
      = Aborted [] "classify_intent" (KeyError "unknown") s)
     ∨ (∃ h f,
          (UserIntent.intent_type response, (h, f)) ∈ routes ∧
          run_turn llm0 tools0 config s
          = after_classification h f config s1)).
Proof.
  intros Hu.
  destruct (classify_intent_returns _ _ _ Hu)
    as (c & m & ui & response & _ & _ & _ & _ & Hty & Hshape).
  assert (∃ s1, apply_update s u = Ok s1) as [s1 Hs1]
    by (rewrite Hshape; eexists; reflexivity).
  exists response, s1.
  destruct (apply_update_fields _ _ _ Hs1)
    as (Hcs & Had & Hnext & _ & Hact & Hmsgs).
  rewrite Hshape in Hcs, Had, Hnext, Hact, Hmsgs.
  simpl in Hcs, Had, Hnext, Hact, Hmsgs.
  split; [by rewrite Hshape|]. do 5 (split; [done|]).
  assert (Hsc : should_continue s1 = UserIntent.intent_type response)
    by (unfold should_continue; by rewrite Hnext).
  assert (Hc : commit classify_intent config s = Ok s1).
  { unfold commit. by rewrite Hu, bind_Ok. }
  unfold run_turn, run_graph. rewrite entry_point.
  change recursion_limit with (S (S (S 22))).
  assert (Hto : ∀ h f,
    (UserIntent.intent_type response, (h, f)) ∈ routes →
    run_from (S (S (S 22))) workflow config [] "classify_intent" s
    = after_classification h f config s1).
  { intros h f Hr. erewrite run_from_next.
    - by eapply run_from_task_handler.
    - rewrite (run_task_node _ _ _ _ node_classify_intent), Hc, bind_Ok.
      by erewrite destinations_classified. }
  unfold UserIntent.intent_types in Hty.
  rewrite !elem_of_cons, elem_of_nil in Hty.
  destruct Hty as [Hk|[Hk|[Hk|[Hk|[]]]]].
  - right. exists "qa_agent", qa_agent.
    assert ((UserIntent.intent_type response, ("qa_agent", qa_agent))
            ∈ routes) by (rewrite Hk; apply list_elem_of_here).
    eauto.
  - right. exists "summarization_agent", summarization_agent.
    assert ((UserIntent.intent_type response,
             ("summarization_agent", summarization_agent)) ∈ routes)
      by (rewrite Hk; apply list_elem_of_further, list_elem_of_here).
    eauto.
  - right. exists "calculation_agent", calculation_agent.
    assert ((UserIntent.intent_type response,
             ("calculation_agent", calculation_agent)) ∈ routes)
      by (rewrite Hk; apply list_elem_of_further, list_elem_of_further,
            list_elem_of_here).
    eauto.
  - left. split; [done|]. erewrite run_from_abort; [done|].
    rewrite (run_task_node _ _ _ _ node_classify_intent), Hc, bind_Ok.
    rewrite destinations_unknown; [done|]. by rewrite Hsc, Hk.
Qed.

Lemma run_turn_unclassified config s e :
  classify_intent s config = Raise e →
  run_turn llm0 tools0 config s = Aborted [] "classify_intent" e s.
Proof.
  intros Hu. unfold run_turn, run_graph. rewrite entry_point.
  change recursion_limit with (S 24).
  erewrite run_from_abort; [done|].
  rewrite (run_task_node _ _ _ _ node_classify_intent).
  unfold commit. by rewrite Hu, !bind_Raise.
Qed.

Lemma commit_returns f config s s' :
  commit f config s = Ok s' →
  ∃ u, f s config = Ok u ∧ apply_update s u = Ok s'.
Proof.
  unfold commit. intros H.
  destruct (f s config) as [u|e]; [|done]. eauto.
Qed.

Lemma classify_intent_not_task_handler :
  "classify_intent" ∉ task_handlers.
Proof.
  unfold task_handlers. intros H.
  rewrite !elem_of_cons, elem_of_nil in H.
  by destruct H as [?|[?|[?|[]]]].
Qed.

Lemma update_memory_not_task_handler : "update_memory" ∉ task_handlers.
Proof.
  unfold task_handlers. intros H.
  rewrite !elem_of_cons, elem_of_nil in H.
  by destruct H as [?|[?|[?|[]]]].
Qed.

(** ** The claims about the router and the turn *)

(** C9: [should_continue] is a total function of the state; on a state
    without [next_step] it returns ["end"], which the path map sends to
    [END], so that routing such a state ends the turn. *)
Theorem should_continue_without_next_step state :
  AgentState.next_step state = None →
  should_continue state = "end"
  ∧ path_map !! should_continue state = Some END
  ∧ destinations workflow "classify_intent" state = Ok [].
Proof.
  intros Hn.
  assert (Hs : should_continue state = "end")
    by (unfold should_continue; by rewrite Hn).
  rewrite destinations_classify_intent, Hs. done.
Qed.

(** C5: when [classify_intent] returns, its update records exactly the
    action ["classify_intent"], stores the intent the model produced (a
    valid [UserIntent]) and sets [next_step] to its [intent_type]; no
    other key is written, and the state after the update has the
    action appended and both fields set. *)
Theorem classify_intent_update state config u :
  classify_intent state config = Ok u →
  ∃ c m user_input response,
    configurable config = Some c ∧ llm c = Some m ∧
    AgentState.user_input state = Some user_input ∧
    intent_call m
      (format_intent_prompt user_input (AgentState.messages state))
    = Ok response ∧
    UserIntent.intent_type response ∈ UserIntent.intent_types ∧
    u = {| Update.user_input := None;
           Update.messages := None;
           Update.intent := Some (Some response);
           Update.next_step := Some (UserIntent.intent_type response);
           Update.conversation_summary := None;
           Update.active_documents := None;
           Update.current_response := None;
           Update.tools_used := None;
           Update.session_id := None;
           Update.user_id := None;
           Update.actions_taken := Some ["classify_intent"] |} ∧
    ∃ s', apply_update state u = Ok s' ∧
      AgentState.actions_taken s'
      = AgentState.actions_taken state ++ ["classify_intent"] ∧
      AgentState.intent s' = Some (Some response) ∧
      AgentState.next_step s'
      = Some (UserIntent.intent_type response).
Proof.
  intros Hu.
  destruct (classify_intent_returns _ _ _ Hu)
    as (c & m & ui & response & Hc & Hm & Hui & Hcall & Hty & Hshape).
  exists c, m, ui, response. do 6 (split; [done|]).
  assert (∃ s', apply_update state u = Ok s') as [s' Hs']
    by (rewrite Hshape; eexists; reflexivity).
  exists s'. split; [done|].
  destruct (apply_update_fields _ _ _ Hs')
    as (_ & _ & Hnext & _ & Hact & _).
  rewrite Hshape in Hnext, Hact. simpl in Hnext, Hact.
  split; [done|]. split; [|done].
  rewrite Hshape in Hs'. by injection Hs' as <-.
Qed.

(** C7: when [update_memory] returns, its update overwrites
    [conversation_summary] with the summary of the consolidator's
    response and [active_documents] with its [document_ids], records
    exactly the action ["update_memory"] and sets [next_step] to
    ["end"]. *)
Theorem update_memory_update state config u :
  update_memory state config = Ok u →
  ∃ c m a response,
    configurable config = Some c ∧ llm c = Some m ∧
    memory_call m (prompt_with_history (AgentState.messages state))
    = Ok a ∧
    UpdateMemoryResponse.new a = Ok response ∧
    u = {| Update.user_input := None;
           Update.messages := None;
           Update.intent := None;
           Update.next_step := Some "end";
           Update.conversation_summary :=
             Some (UpdateMemoryResponse.summary response);
           Update.active_documents :=
             Some (Some (UpdateMemoryResponse.document_ids response));
           Update.current_response := None;
           Update.tools_used := None;
           Update.session_id := None;
           Update.user_id := None;
           Update.actions_taken := Some ["update_memory"] |} ∧
    ∃ s', apply_update state u = Ok s' ∧
      AgentState.conversation_summary s'
      = Some (UpdateMemoryResponse.summary response) ∧
      AgentState.active_documents s'
      = Some (Some (UpdateMemoryResponse.document_ids response)) ∧
      AgentState.actions_taken s'
      = AgentState.actions_taken state ++ ["update_memory"] ∧
      AgentState.next_step s' = Some "end".
Proof.
  intros Hu.
  destruct (update_memory_returns _ _ _ Hu)
    as (c & m & a & response & Hc & Hm & Hcall & Hnew & Hshape).
  exists c, m, a, response. do 5 (split; [done|]).
  assert (∃ s', apply_update state u = Ok s') as [s' Hs']
    by (rewrite Hshape; eexists; reflexivity).
  exists s'. split; [done|].
  destruct (apply_update_fields _ _ _ Hs')
    as (Hcs & Had & Hnext & _ & Hact & _).
  by rewrite Hshape in Hcs, Had, Hnext, Hact.
Qed.

(** C6: a task handler that returns sets [next_step] to
    ["update_memory"]; in the graph each of the three has the single
    edge to [update_memory] and no conditional edge, so that its task
    always continues there and never ends the turn. *)
Theorem task_handlers_continue_to_update_memory :
  (∀ state config u,
     qa_agent state config = Ok u
     ∨ summarization_agent state config = Ok u
     ∨ calculation_agent state config = Ok u →
     Update.next_step u = Some "update_memory")
  ∧ (∀ h, h ∈ task_handlers →
       is_Some (nodes workflow !! h)
       ∧ successors workflow h = ["update_memory"]
       ∧ branches workflow !! h = None
       ∧ ∀ s, destinations workflow h s = Ok ["update_memory"]).
Proof.
  split.
  - intros state config u [H|[H|H]].
    + by destruct (qa_agent_update _ _ _ H) as (? & ? & ->).
    + by destruct (summarization_agent_update _ _ _ H) as (? & ? & ->).
    + by destruct (calculation_agent_update _ _ _ H) as (? & ? & ->).
  - intros h Hh. split; [|split; [|split]].
    + unfold task_handlers in Hh.
      rewrite !elem_of_cons, elem_of_nil in Hh.
      by destruct Hh as [->|[->|[->|[]]]].
    + unfold task_handlers in Hh.
      rewrite !elem_of_cons, elem_of_nil in Hh.
      by destruct Hh as [->|[->|[->|[]]]].
    + unfold task_handlers in Hh.
      rewrite !elem_of_cons, elem_of_nil in Hh.
      by destruct Hh as [->|[->|[->|[]]]].
    + intros s. by apply destinations_task_handler.
Qed.

(** C1, evaluated on the code: when the classified intent is
    ["unknown"], the path map has no entry for the routing key and the
    task of [classify_intent] fails with [KeyError]; the turn is
    aborted there, no node is committed and the state is the one the
    turn started with. *)
Theorem unknown_intent_raises_KeyError config s u :
  classify_intent s config = Ok u →
  Update.next_step u = Some "unknown" →
  path_map !! "unknown" = None
  ∧ run_turn llm0 tools0 config s
    = Aborted [] "classify_intent" (KeyError "unknown") s.
Proof.
  intros Hu Hnext. split; [done|].
  destruct (run_turn_classified _ _ _ Hu)
    as (response & s1 & Hn & _ & _ & _ & _ & _ & [[_ Hrun]|Hrun]);
    [done|].
  destruct Hrun as (h & f & Hr & _).
  rewrite Hnext in Hn. injection Hn as Hk. rewrite <- Hk in Hr.
  unfold routes in Hr. rewrite !elem_of_cons, elem_of_nil in Hr.
  by destruct Hr as [[=]|[[=]|[[=]|[]]]].
Qed.

(** The state of a turn aborted in the task of a task handler. *)
Lemma task_handler_abort_state config s executed node e s' :
  run_turn llm0 tools0 config s = Aborted executed node e s' →
  node ∈ task_handlers →
  AgentState.conversation_summary s' = AgentState.conversation_summary s
  ∧ AgentState.active_documents s' = AgentState.active_documents s
  ∧ executed = ["classify_intent"]
  ∧ AgentState.actions_taken s'
    = AgentState.actions_taken s ++ ["classify_intent"].
Proof.
  intros Hrun Hnode.
  destruct (classify_intent s config) as [u|e0] eqn:Hu.
  - destruct (run_turn_classified _ _ _ Hu)
      as (response & s1 & _ & _ & _ & Hcs & Had & Hact & [[_ Hr]|Hr]).
    + rewrite Hr in Hrun. injection Hrun as _ <- _ _.
      by destruct classify_intent_not_task_handler.
    + destruct Hr as (h & f & _ & Hr). rewrite Hr in Hrun.
      unfold after_classification in Hrun.
      destruct (commit f config s1) as [s2|e1].
      * destruct (commit update_memory config s2) as [s3|e2]; [done|].
        injection Hrun as _ <- _ _.
        by destruct update_memory_not_task_handler.
      * by injection Hrun as <- _ _ <-.
  - rewrite (run_turn_unclassified _ _ _ Hu) in Hrun.
    injection Hrun as _ <- _ _.
    by destruct classify_intent_not_task_handler.
Qed.

Lemma START_not_task_handler : START ∉ task_handlers.
Proof.
  unfold task_handlers. intros H.
  rewrite !elem_of_cons, elem_of_nil in H.
  by destruct H as [?|[?|[?|[]]]].
Qed.

(** C4: when a turn is aborted in the task of a task handler, only
    [classify_intent] was committed: [conversation_summary] and
    [active_documents] hold the values the turn started with, and
    [update_memory] did not run.  For a call whose input does not write
    the two fields, these are the values of the checkpoint. *)
Theorem failed_task_handler_keeps_memory :
  (∀ config s executed node e s',
     run_turn llm0 tools0 config s = Aborted executed node e s' →
     node ∈ task_handlers →
     AgentState.conversation_summary s'
     = AgentState.conversation_summary s
     ∧ AgentState.active_documents s' = AgentState.active_documents s
     ∧ executed = ["classify_intent"]
     ∧ ("update_memory" ∉ executed)
     ∧ AgentState.actions_taken s'
       = AgentState.actions_taken s ++ ["classify_intent"])
  ∧ (∀ config input checkpoint executed node e s',
       invoke workflow config input checkpoint
       = Aborted executed node e s' →
       node ∈ task_handlers →
       Update.conversation_summary input = None →
       Update.active_documents input = None →
       AgentState.conversation_summary s'
       = AgentState.conversation_summary checkpoint
       ∧ AgentState.active_documents s'
         = AgentState.active_documents checkpoint).
Proof.
  split.
  - intros config s executed node e s' Hrun Hnode.
    destruct (task_handler_abort_state _ _ _ _ _ _ Hrun Hnode)
      as (Hcs & Had & -> & Hact).
    do 3 (split; [done|]). split; [|done].
    intros H. rewrite elem_of_cons, elem_of_nil in H.
    by destruct H as [?|[]].
  - intros config input checkpoint executed node e s' Hinv Hnode Hcs Had.
    unfold invoke in Hinv.
    destruct (apply_update checkpoint input) as [s|e0] eqn:Hs.
    + fold (run_turn llm0 tools0 config s) in Hinv.
      destruct (task_handler_abort_state _ _ _ _ _ _ Hinv Hnode)
        as (Hcs' & Had' & _).
      destruct (apply_update_fields _ _ _ Hs) as (Hcs0 & Had0 & _).
      rewrite Hcs in Hcs0. rewrite Had in Had0. simpl in Hcs0, Had0.
      split; congruence.
    + injection Hinv as _ <- _ _. by destruct START_not_task_handler.
Qed.

(** C3, as the code has it: a completed turn classified as ["qa"]
    committed [classify_intent], [qa_agent] and [update_memory] in that
    order, and [actions_taken] is the trail the turn started with
    followed by these three names; it is exactly the three names when
    the trail was empty at the start of the turn. *)
Theorem qa_turn_actions_taken config s u executed s' :
  classify_intent s config = Ok u →
  Update.next_step u = Some "qa" →
  run_turn llm0 tools0 config s = Completed executed s' →
  executed = ["classify_intent"; "qa_agent"; "update_memory"]
  ∧ AgentState.actions_taken s'
    = AgentState.actions_taken s
      ++ ["classify_intent"; "qa_agent"; "update_memory"]
  ∧ (AgentState.actions_taken s = [] →
     AgentState.actions_taken s'
     = ["classify_intent"; "qa_agent"; "update_memory"]).
Proof.
  intros Hu Hnext Hrun.
  destruct (run_turn_classified _ _ _ Hu)
    as (response & s1 & Hn & _ & _ & _ & _ & Hact & [[_ Hr]|Hr]).
  { by rewrite Hr in Hrun. }
  destruct Hr as (h & f & Hr & Hrun').
  rewrite Hnext in Hn. injection Hn as Hk. rewrite <- Hk in Hr.
  assert (h = "qa_agent" ∧ f = qa_agent) as [-> ->].
  { unfold routes in Hr. rewrite !elem_of_cons, elem_of_nil in Hr.
    by destruct Hr as [[= -> ->]|[[=]|[[=]|[]]]]. }
  rewrite Hrun' in Hrun. unfold after_classification in Hrun.
  destruct (commit qa_agent config s1) as [s2|e1] eqn:Hs2; [|done].
  destruct (commit update_memory config s2) as [s3|e2] eqn:Hs3; [|done].
  injection Hrun as <- <-.
  destruct (commit_returns _ _ _ _ Hs2) as (u2 & Hu2 & Ha2).
  destruct (commit_returns _ _ _ _ Hs3) as (u3 & Hu3 & Ha3).
  destruct (qa_agent_update _ _ _ Hu2) as (result & used & ->).
  destruct (update_memory_returns _ _ _ Hu3)
    as (? & ? & ? & ? & _ & _ & _ & _ & Hshape).
  destruct (apply_update_fields _ _ _ Ha3) as (_ & _ & _ & _ & Hact3 & _).
  rewrite Hshape in Hact3.
  destruct (apply_update_fields _ _ _ Ha2) as (_ & _ & _ & _ & Hact2 & _).
  simpl in Hact2, Hact3.
  assert (Hall : AgentState.actions_taken s3
                 = AgentState.actions_taken s
                   ++ ["classify_intent"; "qa_agent"; "update_memory"]).
  { rewrite Hact3, Hact2, Hact, <- !app_assoc. done. }
  split; [done|]. split; [done|].
  intros Hnil. by rewrite Hall, Hnil.
Qed.

(** ** The claim about the messages *)

Lemma apply_update_retained s u s' :
  apply_update s u = Ok s' →
  no_remove (default [] (Update.messages u)) →
  retained (AgentState.messages s) (AgentState.messages s')
  ∧ ∀ i m, AgentState.messages s !! i = Some m →
      is_Some (BaseMessage.id m) →
      (∀ r, r ∈ default [] (Update.messages u) →
         BaseMessage.id r ≠ BaseMessage.id m) →
      AgentState.messages s' !! i = Some m.
Proof.
  intros Hs' Hnr.
  destruct (apply_update_fields _ _ _ Hs') as (_ & _ & _ & _ & _ & Hm).
  destruct (Update.messages u) as [r|]; simpl in *.
  - by eapply add_messages_kept.
  - rewrite Hm. split; [apply retained_refl|]. auto.
Qed.

Lemma task_handler_update k h f state config u :
  (k, (h, f)) ∈ routes →
  f state config = Ok u →
  ∃ result,
    Update.messages u = Some (default [] (AgentResult.messages result))
    ∧ Update.current_response u = Some (Some result).
Proof.
  unfold routes. intros Hr Hu.
  rewrite !elem_of_cons, elem_of_nil in Hr.
  destruct Hr as [[= -> -> ->]|[[= -> -> ->]|[[= -> -> ->]|[]]]].
  - destruct (qa_agent_update _ _ _ Hu) as (result & ? & ->). eauto.
  - destruct (summarization_agent_update _ _ _ Hu) as (result & ? & ->).
    eauto.
  - destruct (calculation_agent_update _ _ _ Hu) as (result & ? & ->).
    eauto.
Qed.

Lemma clean_turn_retained s s' :
  clean_turn llm0 tools0 s s' →
  retained (AgentState.messages s) (AgentState.messages s').
Proof.
  intros (config & input & executed & Hinv & Hin & Hres).
  unfold invoke in Hinv.
  destruct (apply_update s input) as [s0|e] eqn:Hs0; [|done].
  eapply retained_trans;
    [by eapply (apply_update_retained _ _ _ Hs0)|].
  fold (run_turn llm0 tools0 config s0) in Hinv.
  destruct (classify_intent s0 config) as [u|e] eqn:Hu;
    [|by rewrite (run_turn_unclassified _ _ _ Hu) in Hinv].
  destruct (run_turn_classified _ _ _ Hu)
    as (response & s1 & _ & _ & Hm1 & _ & _ & _ & [[_ Hr]|Hr]);
    [by rewrite Hr in Hinv|].
  destruct Hr as (h & f & Hr & Hrun). rewrite Hrun in Hinv.
  unfold after_classification in Hinv.
  destruct (commit f config s1) as [s2|e1] eqn:Hs2; [|done].
  destruct (commit update_memory config s2) as [s3|e2] eqn:Hs3; [|done].
  injection Hinv as _ <-.
  destruct (commit_returns _ _ _ _ Hs2) as (u2 & Hu2 & Ha2).
  destruct (commit_returns _ _ _ _ Hs3) as (u3 & Hu3 & Ha3).
  destruct (task_handler_update _ _ _ _ _ _ Hr Hu2)
    as (result & Hmsgs & Hcur).
  destruct (update_memory_returns _ _ _ Hu3)
    as (? & ? & ? & ? & _ & _ & _ & _ & Hshape).
  destruct (apply_update_fields _ _ _ Ha3)
    as (_ & _ & _ & Hcur3 & _ & Hm3).
  rewrite Hshape in Hcur3, Hm3. simpl in Hcur3, Hm3.
  destruct (apply_update_fields _ _ _ Ha2)
    as (_ & _ & _ & Hcur2 & _ & _).
  rewrite Hcur in Hcur2. simpl in Hcur2.
  rewrite Hm3, <- Hm1.
  eapply (apply_update_retained _ _ _ Ha2).
  rewrite Hmsgs. simpl. apply Hres. congruence.
Qed.

(** C8, as the code has it: an update without [RemoveMessage] retains
    the stored messages (none is removed, each keeps its position and
    identifier) and leaves a stored message unchanged unless the update
    carries a message with its identifier; [classify_intent] and
    [update_memory] leave [messages] unchanged; and over any sequence
    of completed turns in which no [RemoveMessage] is written, the
    messages at the start are retained, so that their number does not
    decrease. *)
Theorem messages_retained :
  (∀ s u s',
     apply_update s u = Ok s' →
     no_remove (default [] (Update.messages u)) →
     retained (AgentState.messages s) (AgentState.messages s')
     ∧ ∀ i m, AgentState.messages s !! i = Some m →
         is_Some (BaseMessage.id m) →
         (∀ r, r ∈ default [] (Update.messages u) →
            BaseMessage.id r ≠ BaseMessage.id m) →
         AgentState.messages s' !! i = Some m)
  ∧ (∀ s config u s',
       classify_intent s config = Ok u
       ∨ update_memory s config = Ok u →
       apply_update s u = Ok s' →
       AgentState.messages s' = AgentState.messages s)
  ∧ (∀ s s',
       rtc (clean_turn llm0 tools0) s s' →
       retained (AgentState.messages s) (AgentState.messages s')
       ∧ length (AgentState.messages s)
         ≤ length (AgentState.messages s')).
Proof.
  split; [apply apply_update_retained|]. split.
  - intros s config u s' Hu Hs'.
    destruct (apply_update_fields _ _ _ Hs')
      as (_ & _ & _ & _ & _ & Hm).
    destruct Hu as [Hu|Hu].
    + destruct (classify_intent_returns _ _ _ Hu)
        as (? & ? & ? & ? & _ & _ & _ & _ & _ & Hshape).
      by rewrite Hshape in Hm.
    + destruct (update_memory_returns _ _ _ Hu)
        as (? & ? & ? & ? & _ & _ & _ & _ & Hshape).
      by rewrite Hshape in Hm.
  - intros s s' Hturns.
    assert (Hret : retained (AgentState.messages s)
                     (AgentState.messages s')).
    { induction Hturns as [s|s s1 s2 Hturn _ IH];
        [apply retained_refl|].
      eapply retained_trans; [by apply clean_turn_retained|done]. }
    split; [done|]. by destruct Hret.
Qed.

(** ** Further properties of the nodes *)

Local Arguments validate_response : simpl never.

(** What a task handler that returned has done: the calls it made and the
    update it built. *)
Lemma task_handler_returns k h f schema state config u :
  (k, (h, f)) ∈ routes →
  (h, schema) ∈ handler_schema →
  f state config = Ok u →
  ∃ c user_input m out r,
    configurable config = Some c
    ∧ AgentState.user_input state = Some user_input
    ∧ llm c = Some m
    ∧ agent_call m (tools c) schema
        (get_chat_prompt_template k user_input (AgentState.messages state))
      = Ok out
    ∧ validate_response schema (AgentOutput.structured_args out) = Ok r
    ∧ u = {| Update.user_input := None;
             Update.messages := Some (default [] (AgentOutput.messages out));
             Update.intent := None;
             Update.next_step := Some "update_memory";
             Update.conversation_summary := None;
             Update.active_documents := None;
             Update.current_response :=
               Some (Some {| AgentResult.messages := AgentOutput.messages out;
                             AgentResult.structured_response := r |});
             Update.tools_used :=
               Some (tool_names (default [] (AgentOutput.messages out)));
             Update.session_id := None;
             Update.user_id := None;
             Update.actions_taken := Some [h] |}.
Proof.
  unfold routes, handler_schema. intros Hr Hs Hu.
  rewrite !elem_of_cons, elem_of_nil in Hr.
  rewrite !elem_of_cons, elem_of_nil in Hs.
  destruct Hr as [[= -> -> ->]|[[= -> -> ->]|[[= -> -> ->]|[]]]];
    destruct Hs as [?|[?|[?|[]]]]; simplify_eq;
    revert Hu;
    unfold qa_agent, summarization_agent, calculation_agent,
      get_configurable, getitem, invoke_react_agent, the_llm;
    intros Hu;
    (destruct (configurable config) as [c|] eqn:Hc; simpl in Hu; [|done]);
    (destruct (AgentState.user_input state) as [ui|] eqn:Hui; simpl in Hu;
       [|done]);
    (destruct (llm c) as [m|] eqn:Hm; simpl in Hu; [|done]);
    match type of Hu with
    | context [agent_call m ?t ?sch ?ms] =>
        destruct (agent_call m t sch ms) as [out|] eqn:Hcall;
          simpl in Hu; [|done]
    end;
    match type of Hu with
    | context [validate_response ?sch ?a] =>
        destruct (validate_response sch a) as [r|] eqn:Hval;
          simpl in Hu; [|done]
    end;
    injection Hu as <-; by exists c, ui, m, out, r.
Qed.

Lemma validate_response_valid schema a r :
  validate_response schema a = Ok r →
  schema_of r = schema
  ∧ ∀ x, r = Answer x →
      unit_interval (AnswerResponse.confidence x) = true
      ∧ (PrimFloat.leb 0.7 (AnswerResponse.confidence x) = true →
         truthy (AnswerResponse.sources x) = true).
Proof.
  unfold validate_response.
  destruct schema, a as [a|a|a]; try done; simpl.
  - unfold AnswerResponse.new,
      AnswerResponse.validate_sources_with_confidence. simpl.
    destruct (unit_interval (AnswerResponse.a_confidence a)) eqn:Hc;
      [|done].
    destruct (PrimFloat.leb 0.7 (AnswerResponse.a_confidence a)) eqn:Hhigh,
      (truthy (list_field (AnswerResponse.a_sources a))) eqn:Hsrc;
      simpl; intros [= <-]; (split; [done|]); intros x [= <-]; simpl;
      split; congruence.
  - intros [= <-]. split; [done|]. by intros x.
  - intros [= <-]. split; [done|]. by intros x.
Qed.

Lemma apply_update_channels s u s' :
  apply_update s u = Ok s' →
  AgentState.user_input s'
  = last_value (AgentState.user_input s) (Update.user_input u)
  ∧ AgentState.session_id s'
    = last_value (AgentState.session_id s) (Update.session_id u)
  ∧ AgentState.user_id s'
    = last_value (AgentState.user_id s) (Update.user_id u)
  ∧ AgentState.intent s'
    = last_value (AgentState.intent s) (Update.intent u)
  ∧ AgentState.tools_used s'
    = last_value (AgentState.tools_used s) (Update.tools_used u).
Proof.
  unfold apply_update. intros H.
  destruct (match Update.messages u with
            | Some r => add_messages (AgentState.messages s) r
            | None => Ok (AgentState.messages s)
            end) as [msgs|e]; [|done].
  rewrite bind_Ok in H. by injection H as <-.
Qed.

(** The keys every node leaves alone, and the action it records. *)
Lemma node_update_keys n f state config u :
  (n, f) ∈ workflow_nodes →
  f state config = Ok u →
  Update.user_input u = None
  ∧ Update.session_id u = None
  ∧ Update.user_id u = None
  ∧ Update.actions_taken u = Some [n].
Proof.
  unfold workflow_nodes. intros Hn Hu.
  rewrite !elem_of_cons, elem_of_nil in Hn.
  destruct Hn as [[= -> ->]|[[= -> ->]|[[= -> ->]|[[= -> ->]|[[= -> ->]|[]]]]]].
  - by destruct (classify_intent_returns _ _ _ Hu)
      as (? & ? & ? & ? & _ & _ & _ & _ & _ & ->).
  - by destruct (qa_agent_update _ _ _ Hu) as (? & ? & ->).
  - by destruct (summarization_agent_update _ _ _ Hu) as (? & ? & ->).
  - by destruct (calculation_agent_update _ _ _ Hu) as (? & ? & ->).
  - by destruct (update_memory_returns _ _ _ Hu)
      as (? & ? & ? & ? & _ & _ & _ & _ & ->).
Qed.

Lemma commit_keeps n f config s s' :
  (n, f) ∈ workflow_nodes →
  commit f config s = Ok s' →
  AgentState.user_input s' = AgentState.user_input s
  ∧ AgentState.session_id s' = AgentState.session_id s
  ∧ AgentState.user_id s' = AgentState.user_id s
  ∧ AgentState.actions_taken s' = AgentState.actions_taken s ++ [n].
Proof.
  intros Hn Hc. destruct (commit_returns _ _ _ _ Hc) as (u & Hu & Hs').
  destruct (node_update_keys _ _ _ _ _ Hn Hu) as (Hui & Hsid & Huid & Hact).
  destruct (apply_update_channels _ _ _ Hs') as (Hui' & Hsid' & Huid' & _).
  destruct (apply_update_fields _ _ _ Hs') as (_ & _ & _ & _ & Hact' & _).
  rewrite Hui in Hui'. rewrite Hsid in Hsid'. rewrite Huid in Huid'.
  by rewrite Hact in Hact'.
Qed.

Lemma routes_workflow_nodes k h f :
  (k, (h, f)) ∈ routes → (h, f) ∈ workflow_nodes.
Proof.
  unfold routes, workflow_nodes. intros Hr.
  rewrite !elem_of_cons, elem_of_nil in Hr. rewrite !elem_of_cons.
  destruct Hr as [[= -> -> ->]|[[= -> -> ->]|[[= -> -> ->]|[]]]]; auto.
Qed.

(** The state a turn leaves behind is reached by committing the executed
    nodes, whatever the outcome. *)
Lemma run_turn_commits config s :
  commits config s
    (executed_nodes (run_turn llm0 tools0 config s))
    (final_state (run_turn llm0 tools0 config s)).
Proof.
  destruct (classify_intent s config) as [u|e] eqn:Hu.
  - destruct (run_turn_classified _ _ _ Hu)
      as (response & s1 & _ & Hs1 & _ & _ & _ & _ & [[_ ->]|Hr]);
      [constructor|].
    destruct Hr as (h & f & Hr & ->).
    assert (Hc1 : commit classify_intent config s = Ok s1)
      by (unfold commit; by rewrite Hu, bind_Ok).
    assert (Hci : ("classify_intent", classify_intent) ∈ workflow_nodes)
      by apply list_elem_of_here.
    assert (Hum : ("update_memory", update_memory) ∈ workflow_nodes).
    { unfold workflow_nodes. rewrite !elem_of_cons. auto 10. }
    pose proof (routes_workflow_nodes _ _ _ Hr) as Hh.
    unfold after_classification.
    destruct (commit f config s1) as [s2|e1] eqn:Hs2; simpl.
    + destruct (commit update_memory config s2) as [s3|e2] eqn:Hs3; simpl.
      * repeat (econstructor; [done|done|]). constructor.
      * repeat (econstructor; [done|done|]). constructor.
    + repeat (econstructor; [done|done|]). constructor.
  - rewrite (run_turn_unclassified _ _ _ Hu). constructor.
Qed.

Lemma routes_handler_schema k h f :
  (k, (h, f)) ∈ routes →
  (k, h) ∈ intent_handler ∧ ∃ schema, (h, schema) ∈ handler_schema.
Proof.
  unfold routes, intent_handler, handler_schema. intros Hr.
  rewrite !elem_of_cons, elem_of_nil in Hr.
  destruct Hr as [[= -> -> ->]|[[= -> -> ->]|[[= -> -> ->]|[]]]];
    (split; [rewrite !elem_of_cons; auto|]);
    eexists; rewrite !elem_of_cons; auto.
Qed.

(** The course of a completed turn. *)
Lemma completed_turn_inv config s executed s' :
  run_turn llm0 tools0 config s = Completed executed s' →
  ∃ response h schema s1 s2 out r,
    (UserIntent.intent_type response, h) ∈ intent_handler
    ∧ (h, schema) ∈ handler_schema
    ∧ executed = ["classify_intent"; h; "update_memory"]
    ∧ AgentState.intent s1 = Some (Some response)
    ∧ validate_response schema (AgentOutput.structured_args out) = Ok r
    ∧ AgentState.current_response s2
      = Some (Some {| AgentResult.messages := AgentOutput.messages out;
                      AgentResult.structured_response := r |})
    ∧ AgentState.tools_used s2
      = Some (tool_names (default [] (AgentOutput.messages out)))
    ∧ AgentState.intent s2 = AgentState.intent s1
    ∧ AgentState.current_response s' = AgentState.current_response s2
    ∧ AgentState.tools_used s' = AgentState.tools_used s2
    ∧ AgentState.intent s' = AgentState.intent s2
    ∧ AgentState.next_step s' = Some "end"
    ∧ is_Some (AgentState.conversation_summary s')
    ∧ is_Some (AgentState.active_documents s')
    ∧ AgentState.messages s1 = AgentState.messages s
    ∧ add_messages (AgentState.messages s1)
        (default [] (AgentOutput.messages out))
      = Ok (AgentState.messages s2)
    ∧ AgentState.messages s' = AgentState.messages s2.
Proof.
  intros Hrun.
  destruct (classify_intent s config) as [u|e] eqn:Hu;
    [|by rewrite (run_turn_unclassified _ _ _ Hu) in Hrun].
  destruct (classify_intent_returns _ _ _ Hu)
    as (c & m & ui & response & _ & _ & _ & _ & _ & Hshape).
  destruct (run_turn_classified _ _ _ Hu)
    as (response' & s1 & Hn & Hs1 & Hm1 & _ & _ & _ & [[_ Hr]|Hr]);
    [by rewrite Hr in Hrun|].
  destruct Hr as (h & f & Hr & Hrun'). rewrite Hrun' in Hrun.
  assert (UserIntent.intent_type response'
          = UserIntent.intent_type response) as Hk.
  { rewrite Hshape in Hn. simpl in Hn. by injection Hn. }
  rewrite Hk in Hr.
  destruct (routes_handler_schema _ _ _ Hr) as (Hih & schema & Hsch).
  unfold after_classification in Hrun.
  destruct (commit f config s1) as [s2|e1] eqn:Hs2; [|done].
  destruct (commit update_memory config s2) as [s3|e2] eqn:Hs3; [|done].
  injection Hrun as <- <-.
  destruct (commit_returns _ _ _ _ Hs2) as (u2 & Hu2 & Ha2).
  destruct (commit_returns _ _ _ _ Hs3) as (u3 & Hu3 & Ha3).
  destruct (task_handler_returns _ _ _ _ _ _ _ Hr Hsch Hu2)
    as (c2 & ui2 & m2 & out & r & _ & _ & _ & _ & Hval & Hshape2).
  destruct (update_memory_returns _ _ _ Hu3)
    as (c3 & m3 & a3 & response3 & _ & _ & _ & _ & Hshape3).
  destruct (apply_update_channels _ _ _ Hs1) as (_ & _ & _ & Hint1 & _).
  destruct (apply_update_channels _ _ _ Ha2) as (_ & _ & _ & Hint2 & Htu2).
  destruct (apply_update_channels _ _ _ Ha3) as (_ & _ & _ & Hint3 & Htu3).
  destruct (apply_update_fields _ _ _ Ha2)
    as (_ & _ & _ & Hcur2 & _ & Hm2).
  destruct (apply_update_fields _ _ _ Ha3)
    as (Hcs3 & Had3 & Hnext3 & Hcur3 & _ & Hm3).
  rewrite Hshape in Hint1. rewrite Hshape2 in Hint2, Htu2, Hcur2, Hm2.
  rewrite Hshape3 in Hint3, Htu3, Hcs3, Had3, Hnext3, Hcur3, Hm3.
  simpl in *.
  exists response, h, schema, s1, s2, out, r.
  do 12 (split; [done|]). rewrite Hcs3, Had3. eauto 10.
Qed.

(** ** Further properties of the turn *)


(** X2: after a completed turn, [current_response] holds a response of
    the schema of the handler that ran, which passed validation: an
    [AnswerResponse] in it has a confidence within [0, 1], and sources
    that are not the empty list when the confidence is 0.7 or more. *)
Theorem completed_turn_response_valid config s executed s' :
  run_turn llm0 tools0 config s = Completed executed s' →
  ∃ h schema result,
    executed = ["classify_intent"; h; "update_memory"]
    ∧ (h, schema) ∈ handler_schema
    ∧ AgentState.current_response s' = Some (Some result)
    ∧ schema_of (AgentResult.structured_response result) = schema
    ∧ ∀ x, AgentResult.structured_response result = Answer x →
        unit_interval (AnswerResponse.confidence x) = true
        ∧ (PrimFloat.leb 0.7 (AnswerResponse.confidence x) = true →
           AnswerResponse.sources x ≠ PyList []).
Proof.
  intros Hrun.
  destruct (completed_turn_inv _ _ _ _ Hrun)
    as (response & h & schema & s1 & s2 & out & r & _ & Hsch & Hex & _
        & Hval & Hcur2 & _ & _ & Hcur3 & _).
  destruct (validate_response_valid _ _ _ Hval) as [Hschema Hvalid].
  eexists h, schema, _. split; [done|]. split; [done|].
  split; [by rewrite Hcur3, Hcur2|]. simpl. split; [done|].
  intros x Hx. destruct (Hvalid x Hx) as [Hc Hsrc]. split; [done|].
  intros Hhigh Hempty. specialize (Hsrc Hhigh). by rewrite Hempty in Hsrc.
Qed.

(** X3: after a completed turn, [tools_used] lists the names of the
    [ToolMessage]s among the messages of [current_response], in their
    order: it is rebuilt from the handler's result at every turn, not
    accumulated. *)
Theorem completed_turn_tools_used config s executed s' :
  run_turn llm0 tools0 config s = Completed executed s' →
  ∃ result,
    AgentState.current_response s' = Some (Some result)
    ∧ AgentState.tools_used s'
      = Some (tool_names (default [] (AgentResult.messages result)))
    ∧ ∀ used, AgentState.tools_used s' = Some used →
        length used ≤ length (default [] (AgentResult.messages result)).
Proof.
  intros Hrun.
  destruct (completed_turn_inv _ _ _ _ Hrun)
    as (response & h & schema & s1 & s2 & out & r & _ & _ & _ & _ & _
        & Hcur2 & Htu2 & _ & Hcur3 & Htu3 & _).
  eexists. split; [by rewrite Hcur3, Hcur2|]. simpl.
  split; [by rewrite Htu3, Htu2|].
  intros used Hused. rewrite Htu3, Htu2 in Hused. injection Hused as <-.
  unfold tool_names. rewrite length_fmap. apply length_filter.
Qed.

Lemma commits_keeps config s ns s' :
  commits config s ns s' →
  AgentState.user_input s' = AgentState.user_input s
  ∧ AgentState.session_id s' = AgentState.session_id s
  ∧ AgentState.user_id s' = AgentState.user_id s
  ∧ AgentState.actions_taken s' = AgentState.actions_taken s ++ ns.
Proof.
  induction 1 as [s|s n f s1 ns s2 Hn Hc _ IH].
  - by rewrite app_nil_r.
  - destruct (commit_keeps _ _ _ _ _ Hn Hc) as (Hui & Hsid & Huid & Hact).
    destruct IH as (Hui' & Hsid' & Huid' & Hact').
    rewrite Hui', Hsid', Huid', Hact', Hact, <- app_assoc. done.
Qed.

(** X4: whatever the outcome of a turn, the state it leaves behind has
    the [user_input], [session_id] and [user_id] the turn started with:
    no node writes them. *)
Theorem turn_keeps_identity config s :
  AgentState.user_input (final_state (run_turn llm0 tools0 config s))
  = AgentState.user_input s
  ∧ AgentState.session_id (final_state (run_turn llm0 tools0 config s))
    = AgentState.session_id s
  ∧ AgentState.user_id (final_state (run_turn llm0 tools0 config s))
    = AgentState.user_id s.
Proof.
  destruct (commits_keeps _ _ _ _ (run_turn_commits config s))
    as (Hui & Hsid & Huid & _).
  done.
Qed.

(** X5: whatever the outcome of a turn, [actions_taken] in the state it
    leaves behind is the trail the turn started with followed by the names
    of the nodes that were committed, in order; so through any call the
    trail of the checkpoint is kept as a prefix. *)
Theorem actions_taken_records_committed_nodes config :
  (∀ s,
     AgentState.actions_taken (final_state (run_turn llm0 tools0 config s))
     = AgentState.actions_taken s
       ++ executed_nodes (run_turn llm0 tools0 config s))
  ∧ (∀ input checkpoint,
       AgentState.actions_taken checkpoint
         `prefix_of`
       AgentState.actions_taken
         (final_state (invoke workflow config input checkpoint))).
Proof.
  assert (Hturn : ∀ s,
    AgentState.actions_taken (final_state (run_turn llm0 tools0 config s))
    = AgentState.actions_taken s
      ++ executed_nodes (run_turn llm0 tools0 config s)).
  { intros s.
    by destruct (commits_keeps _ _ _ _ (run_turn_commits config s))
      as (_ & _ & _ & Hact). }
  split; [done|].
  intros input checkpoint. unfold invoke.
  destruct (apply_update checkpoint input) as [s|e] eqn:Hs; [|done].
  fold (run_turn llm0 tools0 config s). rewrite Hturn.
  destruct (apply_update_fields _ _ _ Hs) as (_ & _ & _ & _ & -> & _).
  rewrite <- app_assoc. by apply prefix_app_r.
Qed.



(** X7: on a state without [user_input], [classify_intent] and the three
    task handlers raise [KeyError('user_input')] before any call to the
    model, and the turn is aborted in [classify_intent] with nothing
    committed. *)
Theorem missing_user_input_raises_KeyError config s c :
  configurable config = Some c →
  AgentState.user_input s = None →
  classify_intent s config = Raise (KeyError "user_input")
  ∧ qa_agent s config = Raise (KeyError "user_input")
  ∧ summarization_agent s config = Raise (KeyError "user_input")
  ∧ calculation_agent s config = Raise (KeyError "user_input")
  ∧ run_turn llm0 tools0 config s
    = Aborted [] "classify_intent" (KeyError "user_input") s.
Proof.
  intros Hc Hui.
  assert (Hclass : classify_intent s config = Raise (KeyError "user_input")).
  { unfold classify_intent, get_configurable, getitem.
    by rewrite Hc, Hui. }
  split; [done|].
  split; [unfold qa_agent, get_configurable, getitem; by rewrite Hc, Hui|].
  split; [unfold summarization_agent, get_configurable, getitem;
          by rewrite Hc, Hui|].
  split; [unfold calculation_agent, get_configurable, getitem;
          by rewrite Hc, Hui|].
  by apply run_turn_unclassified.
Qed.


(** X9: when the model's intent does not conform to [UserIntent] (an
    intent type outside the four literals, or a confidence outside
    [0, 1]), [classify_intent] raises a validation error and the turn is
    aborted there with nothing committed: no action is recorded and no
    route is taken. *)
Theorem classify_intent_rejects_invalid_intent config s c m user_input a :
  configurable config = Some c →
  llm c = Some m →
  AgentState.user_input s = Some user_input →
  intent_call m (format_intent_prompt user_input (AgentState.messages s))
  = Ok a →
  UserIntent.intent_type a ∉ UserIntent.intent_types
  ∨ unit_interval (UserIntent.confidence a) = false →
  ∃ field,
    classify_intent s config = Raise (ValidationError "UserIntent" field)
    ∧ run_turn llm0 tools0 config s
      = Aborted [] "classify_intent" (ValidationError "UserIntent" field) s.
Proof.
  intros Hc Hm Hui Hcall Hbad.
  assert (∃ field, classify_intent s config
                   = Raise (ValidationError "UserIntent" field))
    as [field Hclass].
  { unfold classify_intent, get_configurable, getitem, the_llm.
    rewrite Hc, Hui, !bind_Ok, Hm, bind_Ok, Hcall, bind_Ok.
    unfold UserIntent.new. case_bool_decide as Hty.
    - destruct Hbad as [Hbad| ->]; [done|]. eauto.
    - eauto. }
  exists field. split; [done|]. by apply run_turn_unclassified.
Qed.

(** X10: when the agent's answer has a confidence of 0.7 or more and
    [sources] given as the empty list, [qa_agent] raises the validation
    error of [AnswerResponse] instead of returning an update. *)
Theorem qa_agent_rejects_unsupported_answer state config c m user_input
    out a :
  configurable config = Some c →
  llm c = Some m →
  AgentState.user_input state = Some user_input →
  agent_call m (tools c) AnswerResponse_schema
    (get_chat_prompt_template "qa" user_input (AgentState.messages state))
  = Ok out →
  AgentOutput.structured_args out = AnswerArgs a →
  AnswerResponse.a_sources a = Some [] →
  PrimFloat.leb 0.7 (AnswerResponse.a_confidence a) = true →
  ∃ detail,
    qa_agent state config = Raise (ValidationError "AnswerResponse" detail).
Proof.
  intros Hc Hm Hui Hcall Hargs Hsrc Hhigh.
  unfold qa_agent, get_configurable, getitem, invoke_react_agent, the_llm.
  rewrite Hc, Hui, !bind_Ok, Hm, bind_Ok, Hcall, bind_Ok.
  unfold validate_response. rewrite Hargs.
  unfold AnswerResponse.new,
    AnswerResponse.validate_sources_with_confidence. simpl.
  rewrite Hsrc, Hhigh. simpl.
  destruct (unit_interval (AnswerResponse.a_confidence a)); simpl; eauto.
Qed.

(** X11: [SummarizationResponse], [CalculationResponse] and
    [UpdateMemoryResponse] have no validator that can reject: once the
    agent (or the model) has produced arguments of the schema, the
    summarization handler, the calculation handler and [update_memory]
    return an update; [update_memory] stores the summary and the document
    identifiers as given, and the class [list] when the identifiers were
    omitted. *)
Theorem unvalidated_responses_are_accepted state config c m :
  configurable config = Some c →
  llm c = Some m →
  (∀ user_input out a,
     AgentState.user_input state = Some user_input →
     agent_call m (tools c) SummarizationResponse_schema
       (get_chat_prompt_template "summarization" user_input
          (AgentState.messages state)) = Ok out →
     AgentOutput.structured_args out = SummarizationArgs a →
     is_Ok (summarization_agent state config) = true)
  ∧ (∀ user_input out a,
       AgentState.user_input state = Some user_input →
       agent_call m (tools c) CalculationResponse_schema
         (get_chat_prompt_template "calculation" user_input
            (AgentState.messages state)) = Ok out →
       AgentOutput.structured_args out = CalculationArgs a →
       is_Ok (calculation_agent state config) = true)
  ∧ (∀ a,
       memory_call m (prompt_with_history (AgentState.messages state))
       = Ok a →
       ∃ u, update_memory state config = Ok u
         ∧ Update.conversation_summary u
           = Some (UpdateMemoryResponse.a_summary a)
         ∧ Update.active_documents u
           = Some (Some
               match UpdateMemoryResponse.a_document_ids a with
               | Some ids => PyList ids
               | None => PyListClass
               end)).
Proof.
  intros Hc Hm. split; [|split].
  - intros ui out a Hui Hcall Hargs.
    unfold summarization_agent, get_configurable, getitem,
      invoke_react_agent, the_llm.
    rewrite Hc, Hui, !bind_Ok, Hm, bind_Ok, Hcall, bind_Ok.
    unfold validate_response. by rewrite Hargs.
  - intros ui out a Hui Hcall Hargs.
    unfold calculation_agent, get_configurable, getitem,
      invoke_react_agent, the_llm.
    rewrite Hc, Hui, !bind_Ok, Hm, bind_Ok, Hcall, bind_Ok.
    unfold validate_response. by rewrite Hargs.
  - intros a Hcall.
    unfold update_memory, get_configurable, the_llm.
    rewrite Hc, bind_Ok, Hm, bind_Ok, Hcall, bind_Ok.
    eexists. split; [reflexivity|]. simpl. split; [done|].
    by destruct (UpdateMemoryResponse.a_document_ids a).
Qed.

Lemma assign_ids_has_id ms :
  ∀ ctr,
    Forall (fun m => is_Some (BaseMessage.id m)) (assign_ids ctr ms).1.
Proof.
  induction ms as [|m ms IH]; intros ctr; simpl; [constructor|].
  destruct (BaseMessage.id m) as [k|] eqn:Hid; simpl.
  - constructor; [by rewrite Hid|apply IH].
  - constructor; [done|apply IH].
Qed.

Lemma after_remove_all_Forall (P : BaseMessage.t → Prop) ms rest :
  after_remove_all ms = Some rest → Forall P ms → Forall P rest.
Proof.
  revert rest. induction ms as [|m ms IH]; intros rest; simpl; [done|].
  intros H Hall. inversion Hall as [|? ? _ Hms]; subst.
  destruct (after_remove_all ms) as [tl|].
  - injection H as <-. by apply IH.
  - destruct (_ && _); [|done]. by injection H as <-.
Qed.

Lemma merge_loop_has_id right_msgs :
  ∀ st st',
    Forall (fun m => is_Some (BaseMessage.id m)) right_msgs →
    Forall (fun m => is_Some (BaseMessage.id m)) (merged st) →
    merge_loop st right_msgs = Ok st' →
    Forall (fun m => is_Some (BaseMessage.id m)) (merged st').
Proof.
  induction right_msgs as [|m ms IH]; intros st st' Hr Hst; simpl.
  - by intros [= <-].
  - inversion Hr as [|? ? Hm Hms]; subst.
    destruct (merge_step st m) as [st1|e] eqn:Hstep; [|done].
    rewrite bind_Ok. apply IH; [done|].
    unfold merge_step in Hstep.
    destruct (merged_by_id st !! BaseMessage.id m) as [j|],
      (BaseMessage.is_remove m); try done;
      injection Hstep as <-; simpl; [done| |].
    + by apply Forall_insert.
    + apply Forall_app. split; [done|]. by constructor.
Qed.

(** Every message that [add_messages] returns has an identifier. *)
Lemma add_messages_has_id left_msgs right_msgs out :
  add_messages left_msgs right_msgs = Ok out →
  Forall (fun m => is_Some (BaseMessage.id m)) out.
Proof.
  unfold add_messages.
  pose proof (assign_ids_has_id left_msgs
                (next_uuid (left_msgs ++ right_msgs))) as Hl.
  destruct (assign_ids (next_uuid (left_msgs ++ right_msgs)) left_msgs)
    as [l1 c1]. simpl in *.
  pose proof (assign_ids_has_id right_msgs c1) as Hr.
  destruct (assign_ids c1 right_msgs) as [r1 c2]. simpl in *.
  destruct (after_remove_all r1) as [rest|] eqn:Hall.
  - intros [= <-]. by eapply after_remove_all_Forall.
  - destruct (merge_loop _ r1) as [st|e] eqn:Hloop; [|done].
    rewrite bind_Ok. intros [= <-].
    apply merge_loop_has_id in Hloop; [|done|done].
    apply Forall_forall. intros x Hx.
    apply list_elem_of_filter in Hx as [_ Hx].
    by eapply Forall_forall in Hloop.
Qed.

(** X12: after a completed turn, [messages] is the merge by
    [add_messages] of the messages the turn started with and the messages
    of [current_response] (the handler returns the agent's whole message
    list, and neither [classify_intent] nor [update_memory] writes
    messages); every stored message then has an identifier. *)
Theorem completed_turn_messages config s executed s' :
  run_turn llm0 tools0 config s = Completed executed s' →
  ∃ result,
    AgentState.current_response s' = Some (Some result)
    ∧ add_messages (AgentState.messages s)
        (default [] (AgentResult.messages result))
      = Ok (AgentState.messages s')
    ∧ Forall (fun m => is_Some (BaseMessage.id m)) (AgentState.messages s').
Proof.
  intros Hrun.
  destruct (completed_turn_inv _ _ _ _ Hrun)
    as (response & h & schema & s1 & s2 & out & r & _ & _ & _ & _ & _
        & Hcur2 & _ & _ & Hcur3 & _ & _ & _ & _ & _ & Hm1 & Hm2 & Hm3).
  eexists. split; [by rewrite Hcur3, Hcur2|]. simpl.
  rewrite Hm3, <- Hm1. split; [done|]. by eapply add_messages_has_id.
Qed.

Lemma routes_functional k h f h' f' :
  (k, (h, f)) ∈ routes → (k, (h', f')) ∈ routes → h' = h ∧ f' = f.
Proof.
  unfold routes. intros H H'.
  rewrite !elem_of_cons, elem_of_nil in H.
  rewrite !elem_of_cons, elem_of_nil in H'.
  destruct H as [?|[?|[?|[]]]], H' as [?|[?|[?|[]]]]; by simplify_eq.
Qed.

Lemma apply_update_with_next_step x s u k :
  Update.next_step u = Some k →
  apply_update (with_next_step x s) u = apply_update s u.
Proof. intros Hk. unfold apply_update. simpl. by rewrite Hk. Qed.

(** X13: the [next_step] a turn starts with (the ["end"] left by the
    previous turn of the session, or none) has no influence on a completed
    turn: [classify_intent] does not read it and overwrites it, so the
    turn completes with the same nodes and the same final state whatever
    it was. *)
Theorem stale_next_step_is_ignored config s executed s' x :
  run_turn llm0 tools0 config s = Completed executed s' →
  run_turn llm0 tools0 config (with_next_step x s) = Completed executed s'.
Proof.
  intros Hrun.
  destruct (classify_intent s config) as [u|e] eqn:Hu;
    [|by rewrite (run_turn_unclassified _ _ _ Hu) in Hrun].
  assert (Hu' : classify_intent (with_next_step x s) config = Ok u)
    by exact Hu.
  destruct (run_turn_classified _ _ _ Hu)
    as (response & s1 & Hn & Hs1 & _ & _ & _ & _ & [[_ Hr]|Hr]);
    [by rewrite Hr in Hrun|].
  destruct Hr as (h & f & Hr & Hturn).
  destruct (run_turn_classified _ _ _ Hu')
    as (response' & s1' & Hn' & Hs1' & _ & _ & _ & _ & [[Hk _]|Hr']).
  { rewrite Hn in Hn'. injection Hn' as Heq. rewrite Heq, Hk in Hr.
    unfold routes in Hr. rewrite !elem_of_cons, elem_of_nil in Hr.
    by destruct Hr as [[=]|[[=]|[[=]|[]]]]. }
  destruct Hr' as (h' & f' & Hr' & Hturn').
  rewrite (apply_update_with_next_step _ _ _ _ Hn), Hs1 in Hs1'.
  injection Hs1' as <-.
  rewrite Hn in Hn'. injection Hn' as Heq. rewrite <- Heq in Hr'.
  destruct (routes_functional _ _ _ _ _ Hr Hr') as [-> ->].
  by rewrite Hturn', <- Hturn.
Qed.

(** X14: the graph that [create_workflow] builds is well formed: its
    nodes are the five that are added, every edge leaves [START] or a
    node and leads to a node or [END], every value of the path map is a
    node or [END], and every node has a way out (a fixed edge or the
    conditional edge). *)
Theorem workflow_is_well_formed :
  (∀ n, is_Some (nodes workflow !! n) ↔ n ∈ workflow_nodes.*1)
  ∧ (∀ a b, (a, b) ∈ edges workflow →
       (a = START ∨ is_Some (nodes workflow !! a))
       ∧ (b = END ∨ is_Some (nodes workflow !! b)))
  ∧ (∀ k d, path_map !! k = Some d →
       d = END ∨ is_Some (nodes workflow !! d))
  ∧ (∀ n, is_Some (nodes workflow !! n) →
       successors workflow n ≠ [] ∨ is_Some (branches workflow !! n)).
Proof.
  assert (Hnodes : ∀ n,
    is_Some (nodes workflow !! n) ↔ n ∈ workflow_nodes.*1).
  { intros n. unfold create_workflow, add_node, add_edge, set_entry_point,
      add_conditional_edges, new_graph. simpl.
    rewrite !elem_of_cons, elem_of_nil.
    rewrite !lookup_insert_is_Some, lookup_empty, is_Some_alt.
    split.
    - intros [<-|[_ [<-|[_ [<-|[_ [<-|[_ [<-|[_ []]]]]]]]]]]; auto 10.
    - intros [->|[->|[->|[->|[->|[]]]]]];
        repeat (first [left; reflexivity | right; split; [discriminate|]]). }
  split; [done|]. split; [|split].
  - intros a b Hab.
    assert (Hedges : edges workflow
      = [(START, "classify_intent"); ("qa_agent", "update_memory");
         ("summarization_agent", "update_memory");
         ("calculation_agent", "update_memory"); ("update_memory", END)])
      by reflexivity.
    rewrite Hedges in Hab. rewrite !elem_of_cons, elem_of_nil in Hab.
    rewrite !Hnodes. simpl. rewrite !elem_of_cons.
    destruct Hab as [[= -> ->]|[[= -> ->]|[[= -> ->]|[[= -> ->]|[[= -> ->]|[]]]]]];
      auto 10.
  - intros k d Hd. rewrite Hnodes. simpl. rewrite !elem_of_cons.
    apply path_map_lookup in Hd as [[_ ->]|[[_ ->]|[[_ ->]|[_ ->]]]];
      auto 10.
  - intros n Hn. apply Hnodes in Hn. simpl in Hn.
    rewrite !elem_of_cons, elem_of_nil in Hn.
    destruct Hn as [->|[->|[->|[->|[->|[]]]]]];
      [right; by eexists|left..]; done.
Qed.

Lemma assign_ids_id ms :
  ∀ ctr,
    Forall (fun m => is_Some (BaseMessage.id m)) ms →
    assign_ids ctr ms = (ms, ctr).
Proof.
  induction ms as [|m ms IH]; intros ctr Hms; simpl; [done|].
  inversion Hms as [|? ? [k Hk] Hms']; subst.
  by rewrite Hk, (IH ctr Hms').
Qed.

Lemma index_by_id_notin ms :
  ∀ n d k,
    k ∉ BaseMessage.id <$> ms → index_by_id n ms d !! k = d !! k.
Proof.
  induction ms as [|m ms IH]; intros n d k Hk; simpl; [done|].
  rewrite fmap_cons, not_elem_of_cons in Hk. destruct Hk as [Hne Hk].
  rewrite IH by done. by rewrite lookup_insert_ne.
Qed.

Lemma index_by_id_lookup ms :
  ∀ n d i m,
    NoDup (BaseMessage.id <$> ms) →
    ms !! i = Some m →
    index_by_id n ms d !! BaseMessage.id m = Some (n + i).
Proof.
  induction ms as [|m0 ms IH]; intros n d i m Hnd Hi; simpl; [done|].
  rewrite fmap_cons in Hnd. apply NoDup_cons in Hnd as [Hnotin Hnd].
  destruct i as [|i]; simpl in Hi.
  - injection Hi as ->. rewrite index_by_id_notin by done.
    rewrite lookup_insert_eq. f_equal. lia.
  - rewrite (IH (S n) _ i m Hnd Hi). f_equal. lia.
Qed.

Lemma merge_loop_app st ms1 ms2 :
  merge_loop st (ms1 ++ ms2) = (st' ← merge_loop st ms1; merge_loop st' ms2).
Proof.
  revert st. induction ms1 as [|m ms1 IH]; intros st; simpl; [done|].
  destruct (merge_step st m) as [st1|e]; [|done].
  by rewrite !bind_Ok.
Qed.

(** Messages that are stored, under their own identifier, merge into
    themselves. *)
Lemma merge_loop_stored ms :
  ∀ st,
    ids_to_remove st = ∅ →
    no_remove ms →
    (∀ m, m ∈ ms →
       ∃ i, merged st !! i = Some m
         ∧ merged_by_id st !! BaseMessage.id m = Some i) →
    merge_loop st ms = Ok st.
Proof.
  induction ms as [|m ms IH]; intros st Hrm Hnr Hst; simpl; [done|].
  inversion Hnr as [|? ? Hm Hms]; subst.
  destruct (Hst m) as (i & Hi & Hid); [by left|].
  assert (Hstep : merge_step st m = Ok st).
  { unfold merge_step. rewrite Hid, Hm. destruct st as [mg byid rmv].
    simpl in *. subst rmv. rewrite list_insert_id by done.
    do 2 f_equal. apply set_eq. intros k.
    rewrite elem_of_difference, elem_of_empty. tauto. }
  rewrite Hstep, bind_Ok. apply IH; [done|done|].
  intros m' Hm'. apply Hst. by right.
Qed.

(** Messages with new, distinct identifiers are appended. *)
Lemma merge_loop_new ms :
  ∀ st,
    ids_to_remove st = ∅ →
    indexes (merged_by_id st) (merged st) →
    no_remove ms →
    NoDup (BaseMessage.id <$> (merged st ++ ms)) →
    ∃ st', merge_loop st ms = Ok st'
      ∧ merged st' = merged st ++ ms
      ∧ ids_to_remove st' = ∅.
Proof.
  induction ms as [|m ms IH]; intros st Hrm Hidx Hnr Hnd; simpl.
  - exists st. by rewrite app_nil_r.
  - inversion Hnr as [|? ? Hm Hms]; subst.
    assert (Hnone : merged_by_id st !! BaseMessage.id m = None).
    { destruct (merged_by_id st !! BaseMessage.id m) as [i|] eqn:Hi;
        [|done].
      destruct (Hidx _ _ Hi) as (x & Hx & Hxid).
      rewrite fmap_app, fmap_cons in Hnd.
      apply NoDup_app in Hnd as (_ & Hdisj & _).
      destruct (Hdisj (BaseMessage.id m)).
      - rewrite <- Hxid. apply list_elem_of_fmap_2.
        by eapply list_elem_of_lookup_2.
      - by left. }
    destruct (merge_step st m) as [st1|e] eqn:Hstep.
    + destruct (merge_step_kept _ _ _ Hm Hidx Hrm Hstep)
        as (Hidx1 & Hrm1 & _ & _).
      unfold merge_step in Hstep. rewrite Hnone, Hm in Hstep.
      injection Hstep as <-. rewrite bind_Ok.
      destruct (IH _ Hrm1 Hidx1 Hms) as (st' & Hloop & Hmerged & Hrm').
      { simpl. by rewrite <- app_assoc. }
      exists st'. split; [done|]. split; [|done].
      rewrite Hmerged. simpl. by rewrite <- app_assoc.
    + unfold merge_step in Hstep. by rewrite Hnone, Hm in Hstep.
Qed.

(** X15: a task handler returns the agent's whole message list, which
    begins with the history the agent was given.  When the update's
    messages are the stored messages followed by new ones, all with
    distinct identifiers and none a [RemoveMessage], the merge does not
    duplicate the history: the new messages are appended to it. *)
Theorem returned_history_is_not_duplicated s u s' new_msgs :
  Update.messages u = Some (AgentState.messages s ++ new_msgs) →
  Forall (fun m => is_Some (BaseMessage.id m))
    (AgentState.messages s ++ new_msgs) →
  NoDup (BaseMessage.id <$> (AgentState.messages s ++ new_msgs)) →
  no_remove (AgentState.messages s ++ new_msgs) →
  apply_update s u = Ok s' →
  AgentState.messages s' = AgentState.messages s ++ new_msgs.
Proof.
  intros Hu Hids Hnd Hnr Hs'.
  destruct (apply_update_fields _ _ _ Hs') as (_ & _ & _ & _ & _ & Hm).
  rewrite Hu in Hm. revert Hm.
  generalize (AgentState.messages s') as out.
  revert Hids Hnd Hnr. generalize (AgentState.messages s) as l.
  intros l Hids Hnd Hnr out. unfold add_messages.
  pose proof Hids as Hl. apply Forall_app in Hl as [Hl _].
  rewrite (assign_ids_id l _ Hl). simpl.
  rewrite (assign_ids_id (l ++ new_msgs) _ Hids). simpl.
  rewrite (after_remove_all_no_remove _ Hnr).
  pose proof Hnr as Hnrl. apply Forall_app in Hnrl as [Hnrl Hnrn].
  pose proof Hnd as Hndl. rewrite fmap_app in Hndl.
  apply NoDup_app in Hndl as (Hndl & _ & _).
  rewrite merge_loop_app, (merge_loop_stored l); [|done|done|].
  - rewrite bind_Ok.
    destruct (merge_loop_new new_msgs
                {| merged := l; merged_by_id := index_by_id 0 l ∅;
                   ids_to_remove := ∅ |})
      as (st' & Hloop & Hmerged & Hrm); [done| |done|done|].
    { apply (index_by_id_indexes l [] ∅). by intros k i. }
    rewrite Hloop, bind_Ok. intros [= <-].
    rewrite filter_all, Hmerged; [done|].
    rewrite Hrm. apply Forall_forall. intros x _. apply not_elem_of_empty.
  - intros m Hm. apply list_elem_of_lookup in Hm as [i Hi].
    exists i. split; [done|]. simpl.
    by rewrite (index_by_id_lookup l 0 ∅ i m Hndl Hi).
Qed.

End Workflow.

End Agent.

(** ** The properties on the sample collaborators *)

Local Abbreviation sample_memory_prompt := "Summarize the conversation.".

Local Abbreviation sample_turn :=
  (run_turn sample_format_intent_prompt sample_chat_prompt_template
     sample_memory_prompt 0%Z None None).

Local Abbreviation sample_invoke :=
  (invoke
     (create_workflow sample_format_intent_prompt
        sample_chat_prompt_template sample_memory_prompt 0%Z None None)).

(** The end-to-end scenario of a question: the turn completes with
    [next_step] at ["end"] and the three actions recorded. *)
Example capital_of_France :
  ∃ s', sample_turn qa_config first_state
        = Completed ["classify_intent"; "qa_agent"; "update_memory"] s'
    ∧ AgentState.next_step s' = Some "end"
    ∧ AgentState.actions_taken s'
      = ["classify_intent"; "qa_agent"; "update_memory"]
    ∧ AgentState.conversation_summary s'
      = Some "The user asked about France.".
Proof. eexists. split; [vm_compute; reflexivity|done]. Qed.

(** The unknown intent on the sample model: the turn raises. *)
Lemma unknown_intent_raises_KeyError_witness :
  ∃ u, classify_intent sample_format_intent_prompt first_state unknown_config
       = Ok u
    ∧ Update.next_step u = Some "unknown"
    ∧ path_map !! "unknown" = None
    ∧ sample_turn unknown_config first_state
      = Aborted [] "classify_intent" (KeyError "unknown") first_state.
Proof.
  eexists. split; [vm_compute; reflexivity|]. split; [reflexivity|].
  refine (unknown_intent_raises_KeyError sample_format_intent_prompt
            sample_chat_prompt_template sample_memory_prompt 0%Z None None
            unknown_config first_state _ _ _).
  - vm_compute; reflexivity.
  - reflexivity.
Defined.

(** The router on the state of a thread without checkpoint. *)
Lemma should_continue_without_next_step_witness :
  AgentState.next_step AgentState.empty = None
  ∧ should_continue AgentState.empty = "end"
  ∧ path_map !! should_continue AgentState.empty = Some END
  ∧ destinations
      (create_workflow sample_format_intent_prompt
         sample_chat_prompt_template sample_memory_prompt 0%Z None None)
      "classify_intent" AgentState.empty = Ok [].
Proof.
  split; [reflexivity|].
  refine (should_continue_without_next_step sample_format_intent_prompt
            sample_chat_prompt_template sample_memory_prompt 0%Z None None
            AgentState.empty _).
  reflexivity.
Defined.

(** The classification of the sample question. *)
Lemma classify_intent_update_witness :
  ∃ u,
    classify_intent sample_format_intent_prompt first_state qa_config = Ok u
    ∧ Update.actions_taken u = Some ["classify_intent"]
    ∧ Update.next_step u = Some "qa"
    ∧ ∃ s', apply_update first_state u = Ok s'
        ∧ AgentState.actions_taken s' = ["classify_intent"]
        ∧ AgentState.next_step s' = Some "qa".
Proof.
  eexists. split; [vm_compute; reflexivity|].
  do 2 (split; [reflexivity|]).
  match goal with
  | |- ∃ s', apply_update _ ?u = _ ∧ _ =>
      assert (Hu : classify_intent sample_format_intent_prompt first_state
                     qa_config = Ok u) by (vm_compute; reflexivity)
  end.
  destruct (classify_intent_update sample_format_intent_prompt first_state
              qa_config _ Hu)
    as (c & m & ui & r & _ & _ & _ & _ & _ & Hshape & s' & Hs' & Hact & _
        & Hnext).
  exists s'. split; [exact Hs'|]. split; [exact Hact|].
  rewrite Hnext. by injection Hshape as <-.
Defined.

(** The consolidation on the sample model. *)
Lemma update_memory_update_witness :
  ∃ u,
    update_memory sample_memory_prompt first_state qa_config = Ok u
    ∧ Update.next_step u = Some "end"
    ∧ ∃ s', apply_update first_state u = Ok s'
        ∧ AgentState.actions_taken s' = ["update_memory"]
        ∧ AgentState.next_step s' = Some "end".
Proof.
  eexists. split; [vm_compute; reflexivity|]. split; [reflexivity|].
  match goal with
  | |- ∃ s', apply_update _ ?u = _ ∧ _ =>
      assert (Hu : update_memory sample_memory_prompt first_state qa_config
                   = Ok u) by (vm_compute; reflexivity)
  end.
  destruct (update_memory_update sample_memory_prompt first_state qa_config
              _ Hu)
    as (c & m & a & r & _ & _ & _ & _ & _ & s' & Hs' & _ & _ & Hact & Hnext).
  exists s'. split; [exact Hs'|]. split; [exact Hact|exact Hnext].
Defined.

(** The question handler on the sample model, and its edge. *)
Lemma task_handlers_continue_to_update_memory_witness :
  ∃ u,
    qa_agent sample_chat_prompt_template 0%Z first_state qa_config = Ok u
    ∧ Update.next_step u = Some "update_memory"
    ∧ "qa_agent" ∈ task_handlers
    ∧ successors
        (create_workflow sample_format_intent_prompt
           sample_chat_prompt_template sample_memory_prompt 0%Z None None)
        "qa_agent" = ["update_memory"].
Proof.
  destruct (task_handlers_continue_to_update_memory
              sample_format_intent_prompt sample_chat_prompt_template
              sample_memory_prompt 0%Z None None) as [Hnext Hedges].
  assert (Hin : "qa_agent" ∈ task_handlers) by apply list_elem_of_here.
  eexists. split; [vm_compute; reflexivity|].
  split; [apply (Hnext first_state qa_config); left; vm_compute; reflexivity|].
  split; [exact Hin|]. exact (proj1 (proj2 (Hedges _ Hin))).
Defined.

(** A turn whose answer the validator rejects: the summary and the
    documents of the state are the ones the turn started with. *)
Lemma failed_task_handler_keeps_memory_witness :
  ∃ e s',
    sample_turn rejected_config state_with_history
    = Aborted ["classify_intent"] "qa_agent" e s'
    ∧ "qa_agent" ∈ task_handlers
    ∧ AgentState.conversation_summary s'
      = AgentState.conversation_summary state_with_history
    ∧ AgentState.active_documents s'
      = AgentState.active_documents state_with_history
    ∧ ["classify_intent"] = ["classify_intent"]
    ∧ ("update_memory" ∉ ["classify_intent"])
    ∧ AgentState.actions_taken s'
      = AgentState.actions_taken state_with_history ++ ["classify_intent"].
Proof.
  assert (Hin : "qa_agent" ∈ task_handlers) by apply list_elem_of_here.
  eexists _, _. split; [vm_compute; reflexivity|]. split; [exact Hin|].
  refine (proj1 (failed_task_handler_keeps_memory
                   sample_format_intent_prompt sample_chat_prompt_template
                   sample_memory_prompt 0%Z None None)
            rejected_config state_with_history ["classify_intent"]
            "qa_agent" _ _ _ Hin).
  vm_compute; reflexivity.
Defined.

(** The first turn of a session, from an empty trail. *)
Lemma qa_turn_actions_taken_witness :
  ∃ u s',
    classify_intent sample_format_intent_prompt first_state qa_config = Ok u
    ∧ Update.next_step u = Some "qa"
    ∧ sample_turn qa_config first_state
      = Completed ["classify_intent"; "qa_agent"; "update_memory"] s'
    ∧ AgentState.actions_taken s'
      = ["classify_intent"; "qa_agent"; "update_memory"].
Proof.
  eexists _, _. split; [vm_compute; reflexivity|]. split; [reflexivity|].
  split; [vm_compute; reflexivity|].
  refine (proj2 (proj2
            (qa_turn_actions_taken sample_format_intent_prompt
               sample_chat_prompt_template sample_memory_prompt 0%Z None None
               qa_config first_state _
               ["classify_intent"; "qa_agent"; "update_memory"] _ _ _ _))
            _).
  - vm_compute; reflexivity.
  - reflexivity.
  - vm_compute; reflexivity.
  - reflexivity.
Defined.

(** C3 as stated fails on the second turn of a session: the trail of the
    first turn is still in the state, and the three names are appended to
    it. *)
Lemma qa_turn_actions_taken_accumulate :
  ∃ executed1 s1 s u executed2 s2,
    sample_invoke qa_config (turn_input "What is the capital of France?")
      AgentState.empty = Completed executed1 s1
    ∧ apply_update s1 (turn_input "And the capital of Italy?") = Ok s
    ∧ classify_intent sample_format_intent_prompt s qa_config = Ok u
    ∧ Update.next_step u = Some "qa"
    ∧ sample_turn qa_config s = Completed executed2 s2
    ∧ AgentState.actions_taken s2
      = ["classify_intent"; "qa_agent"; "update_memory";
         "classify_intent"; "qa_agent"; "update_memory"]
    ∧ AgentState.actions_taken s2
      ≠ ["classify_intent"; "qa_agent"; "update_memory"].
Proof.
  eexists _, _, _, _, _, _.
  split; [vm_compute; reflexivity|]. split; [vm_compute; reflexivity|].
  split; [vm_compute; reflexivity|]. split; [reflexivity|].
  split; [vm_compute; reflexivity|]. split; [reflexivity|done].
Qed.

(** C8 as stated fails when the result of a task handler carries a
    message with a stored identifier, or a [RemoveMessage]: the stored
    answer of the first turn is replaced in the second, and a stored
    message is deleted, the history getting shorter. *)
Lemma stored_message_replaced_or_removed :
  (∃ executed1 s1 executed2 s2,
     sample_turn qa_config first_state = Completed executed1 s1
     ∧ AgentState.messages s1 !! 2 = Some paris
     ∧ sample_turn
         (sample_config
            (sample_llm "qa"
               (sample_agent
                  (BaseMessage.Build (Some (GivenId "run-1")) AIMessage
                     "Lyon" None) paris_args))) s1
       = Completed executed2 s2
     ∧ AgentState.messages s2 !! 2
       = Some (BaseMessage.Build (Some (GivenId "run-1")) AIMessage "Lyon"
                 None)
     ∧ paris ∉ AgentState.messages s2)
  ∧ (∃ executed s',
       sample_turn
         (sample_config
            (sample_llm "qa" (fixed_agent [hello_removal] paris_args)))
         state_with_history = Completed executed s'
       ∧ AgentState.messages state_with_history = [hello]
       ∧ AgentState.messages s' = []
       ∧ length (AgentState.messages s')
         < length (AgentState.messages state_with_history)).
Proof.
  split.
  - eexists _, _, _, _.
    split; [vm_compute; reflexivity|]. split; [reflexivity|].
    split; [vm_compute; reflexivity|]. split; [reflexivity|].
    simpl. rewrite !elem_of_cons, elem_of_nil.
    by intros [?|[?|[?|[?|[?|[]]]]]].
  - eexists _, _.
    split; [vm_compute; reflexivity|]. split; [reflexivity|].
    split; [reflexivity|]. simpl. lia.
Qed.

(** A turn on a state with history: the stored message is retained. *)
Lemma messages_retained_witness :
  ∃ executed s',
    sample_invoke qa_config (turn_input "What is the capital of France?")
      state_with_history = Completed executed s'
    ∧ rtc (clean_turn sample_format_intent_prompt
             sample_chat_prompt_template sample_memory_prompt 0%Z None None)
        state_with_history s'
    ∧ retained (AgentState.messages state_with_history)
        (AgentState.messages s')
    ∧ length (AgentState.messages state_with_history)
      ≤ length (AgentState.messages s').
Proof.
  eexists _, _. split; [vm_compute; reflexivity|].
  match goal with |- ?R ∧ _ => assert (Hturns : R) end.
  { apply rtc_once.
    exists qa_config, (turn_input "What is the capital of France?").
    eexists. split; [vm_compute; reflexivity|]. split; [constructor|].
    intros result [= <-]. repeat constructor. }
  split; [exact Hturns|].
  exact (proj2 (proj2 (messages_retained sample_format_intent_prompt
                         sample_chat_prompt_template sample_memory_prompt
                         0%Z None None)) _ _ Hturns).
Defined.

(** ** The further properties on the sample collaborators *)

Local Abbreviation sample_workflow :=
  (create_workflow sample_format_intent_prompt sample_chat_prompt_template
     sample_memory_prompt 0%Z None None).


(** A question turn: the stored response is a valid answer. *)
Lemma completed_turn_response_valid_witness :
  ∃ s',
    sample_turn qa_config first_state
    = Completed ["classify_intent"; "qa_agent"; "update_memory"] s'
    ∧ ∃ h schema result,
        ["classify_intent"; "qa_agent"; "update_memory"]
        = ["classify_intent"; h; "update_memory"]
        ∧ (h, schema) ∈ handler_schema
        ∧ AgentState.current_response s' = Some (Some result)
        ∧ schema_of (AgentResult.structured_response result) = schema
        ∧ ∀ x, AgentResult.structured_response result = Answer x →
            unit_interval (AnswerResponse.confidence x) = true
            ∧ (PrimFloat.leb 0.7 (AnswerResponse.confidence x) = true →
               AnswerResponse.sources x ≠ PyList []).
Proof.
  eexists. split; [vm_compute; reflexivity|].
  refine (completed_turn_response_valid sample_format_intent_prompt
            sample_chat_prompt_template sample_memory_prompt 0%Z None None
            qa_config first_state _ _ _).
  vm_compute; reflexivity.
Defined.

(** A calculation turn that called the calculator once. *)
Lemma completed_turn_tools_used_witness :
  ∃ s',
    sample_turn calculation_config first_state
    = Completed ["classify_intent"; "calculation_agent"; "update_memory"] s'
    ∧ AgentState.tools_used s' = Some [Some "calculator"]
    ∧ ∃ result,
        AgentState.current_response s' = Some (Some result)
        ∧ AgentState.tools_used s'
          = Some (tool_names (default [] (AgentResult.messages result)))
        ∧ ∀ used, AgentState.tools_used s' = Some used →
            length used ≤ length (default [] (AgentResult.messages result)).
Proof.
  eexists. split; [vm_compute; reflexivity|]. split; [reflexivity|].
  refine (completed_turn_tools_used sample_format_intent_prompt
            sample_chat_prompt_template sample_memory_prompt 0%Z None None
            calculation_config first_state _ _ _).
  vm_compute; reflexivity.
Defined.


(** A thread without checkpoint, called without input. *)
Lemma missing_user_input_raises_KeyError_witness :
  configurable qa_config
  = Some {| llm := Some (sample_llm "qa" (sample_agent paris paris_args));
            tools := Some ["calculator"] |}
  ∧ AgentState.user_input AgentState.empty = None
  ∧ sample_turn qa_config AgentState.empty
    = Aborted [] "classify_intent" (KeyError "user_input") AgentState.empty.
Proof.
  split; [reflexivity|]. split; [reflexivity|].
  refine (proj2 (proj2 (proj2 (proj2
            (missing_user_input_raises_KeyError sample_format_intent_prompt
               sample_chat_prompt_template sample_memory_prompt 0%Z None None
               qa_config AgentState.empty _ _ _))))); reflexivity.
Defined.


(** A model that answers with an intent type outside the schema. *)
Lemma classify_intent_rejects_invalid_intent_witness :
  ("chitchat" ∉ UserIntent.intent_types)
  ∧ ∃ field,
      classify_intent sample_format_intent_prompt first_state chitchat_config
      = Raise (ValidationError "UserIntent" field)
      ∧ sample_turn chitchat_config first_state
        = Aborted [] "classify_intent" (ValidationError "UserIntent" field)
            first_state.
Proof.
  assert (Hbad : "chitchat" ∉ UserIntent.intent_types).
  { unfold UserIntent.intent_types. intros H.
    rewrite !elem_of_cons, elem_of_nil in H.
    by destruct H as [?|[?|[?|[?|[]]]]]. }
  split; [exact Hbad|].
  refine (classify_intent_rejects_invalid_intent sample_format_intent_prompt
            sample_chat_prompt_template sample_memory_prompt 0%Z None None
            chitchat_config first_state _ _ _
            {| UserIntent.intent_type := "chitchat";
               UserIntent.confidence := 0.95;
               UserIntent.reasoning := "sample" |} _ _ _ _ _);
    [reflexivity|reflexivity|reflexivity|reflexivity|by left].
Defined.

(** An answer of confidence 0.9 without sources. *)
Lemma qa_agent_rejects_unsupported_answer_witness :
  PrimFloat.leb 0.7 0.9 = true
  ∧ ∃ detail,
      qa_agent sample_chat_prompt_template 0%Z first_state rejected_config
      = Raise (ValidationError "AnswerResponse" detail).
Proof.
  split; [reflexivity|].
  refine (qa_agent_rejects_unsupported_answer sample_chat_prompt_template
            0%Z first_state rejected_config _ _ _ _ _ _ _ _ _ _ _ _);
    [reflexivity|reflexivity|reflexivity|reflexivity|reflexivity
    |reflexivity|reflexivity].
Defined.

(** A summarization the agent produced, and a consolidation. *)
Lemma unvalidated_responses_are_accepted_witness :
  is_Ok (summarization_agent sample_chat_prompt_template 0%Z first_state
           summarization_config) = true
  ∧ ∃ u,
      update_memory sample_memory_prompt first_state summarization_config
      = Ok u
      ∧ Update.conversation_summary u = Some "The user asked about France."
      ∧ Update.active_documents u = Some (Some (PyList ["d1"])).
Proof.
  destruct (unvalidated_responses_are_accepted sample_chat_prompt_template
              sample_memory_prompt 0%Z first_state summarization_config
              _ _ eq_refl eq_refl) as (Hsum & _ & Hmem).
  split.
  - refine (Hsum _ _ _ _ _ _); reflexivity.
  - exact (Hmem _ eq_refl).
Defined.

(** The messages after the sample question. *)
Lemma completed_turn_messages_witness :
  ∃ s',
    sample_turn qa_config state_with_history
    = Completed ["classify_intent"; "qa_agent"; "update_memory"] s'
    ∧ length (AgentState.messages s') = 4
    ∧ ∃ result,
        AgentState.current_response s' = Some (Some result)
        ∧ add_messages (AgentState.messages state_with_history)
            (default [] (AgentResult.messages result))
          = Ok (AgentState.messages s')
        ∧ Forall (fun m => is_Some (BaseMessage.id m))
            (AgentState.messages s').
Proof.
  eexists. split; [vm_compute; reflexivity|]. split; [reflexivity|].
  refine (completed_turn_messages sample_format_intent_prompt
            sample_chat_prompt_template sample_memory_prompt 0%Z None None
            qa_config state_with_history _ _ _).
  vm_compute; reflexivity.
Defined.

(** The sample question on a state whose [next_step] is the ["end"] of an
    earlier turn. *)
Lemma stale_next_step_is_ignored_witness :
  ∃ s',
    sample_turn qa_config first_state
    = Completed ["classify_intent"; "qa_agent"; "update_memory"] s'
    ∧ sample_turn qa_config (with_next_step (Some "end") first_state)
      = Completed ["classify_intent"; "qa_agent"; "update_memory"] s'.
Proof.
  eexists. split; [vm_compute; reflexivity|].
  refine (stale_next_step_is_ignored sample_format_intent_prompt
            sample_chat_prompt_template sample_memory_prompt 0%Z None None
            qa_config first_state _ _ (Some "end") _).
  vm_compute; reflexivity.
Defined.

(** The edge from the question handler. *)
Lemma workflow_is_well_formed_witness :
  ("qa_agent", "update_memory") ∈ edges sample_workflow
  ∧ ("qa_agent" = START ∨ is_Some (nodes sample_workflow !! "qa_agent"))
  ∧ ("update_memory" = END
     ∨ is_Some (nodes sample_workflow !! "update_memory")).
Proof.
  assert (Hedge : ("qa_agent", "update_memory") ∈ edges sample_workflow)
    by apply list_elem_of_further, list_elem_of_here.
  split; [exact Hedge|].
  exact (proj1 (proj2 (workflow_is_well_formed sample_format_intent_prompt
                         sample_chat_prompt_template sample_memory_prompt
                         0%Z None None)) _ _ Hedge).
Defined.

(** An update that returns the stored greeting followed by the answer. *)
Lemma returned_history_is_not_duplicated_witness :
  ∃ s',
    apply_update state_with_history greeting_and_answer = Ok s'
    ∧ AgentState.messages s'
      = AgentState.messages state_with_history ++ [paris].
Proof.
  eexists. split; [vm_compute; reflexivity|].
  refine (returned_history_is_not_duplicated sample_chat_prompt_template
            sample_memory_prompt state_with_history greeting_and_answer _
            [paris] eq_refl _ _ _ _).
  - repeat constructor; by eexists.
  - simpl. apply NoDup_cons. split.
    + rewrite elem_of_cons, elem_of_nil. by intros [?|[]].
    + apply NoDup_singleton.
  - repeat constructor.
  - vm_compute; reflexivity.
Defined.
